(** * SaasDentista: route-access middleware, client guard and auth state

    A shallow embedding of the session/authorization slice of the
    application:

    - [lib/utils]               ([isValidEmail], [isValidPassword],
                                 [formatAuthError]);
    - the edge middleware, in its two revisions (the auth-helpers one and
      the [@supabase/ssr] one, which wraps the profile lookup in try/catch);
    - [AuthService]             (login, register, logout, getUserProfile,
                                 getCurrentUser);
    - [AuthProvider]            (the React context holding
                                 [user]/[loading]/[error]);
    - [AuthGuard]               (the client-side route guard).

    Strings are sequences of code units below 256 ([ascii]).  Remote calls
    (identity provider, profile table) are answers supplied by a client
    record; every remote call is also written to a trace, so that "which
    calls were issued" is a property of the embedded code. *)

From Stdlib Require Import Strings.String Strings.Ascii Lists.List Bool.Bool.
From Stdlib Require Import Arith.PeanoNat.
Import ListNotations.
Local Open Scope string_scope.
Local Open Scope bool_scope.

(** ** JavaScript string helpers *)

Module JS.

(** [s.startsWith(p)] *)
Definition startsWith (s p : string) : bool := String.prefix p s.

(** [xs.some(f)] *)
Definition some {A} (f : A -> bool) (xs : list A) : bool := existsb f xs.

(** [xs.includes(x)] on arrays of strings *)
Definition includes (xs : list string) (x : string) : bool :=
  existsb (String.eqb x) xs.

(** Truthiness of a [string | null] value: [null] and the empty string
    are falsy. *)
Definition truthy (v : option string) : bool :=
  match v with
  | None => false
  | Some s => negb (s =? "")
  end.

(** The white-space class shared by [\s] and [String.prototype.trim],
    restricted to code units below 256. *)
Definition isSpace (c : ascii) : bool :=
  let n := nat_of_ascii c in
  (n =? 9)%nat || (n =? 10)%nat || (n =? 11)%nat || (n =? 12)%nat
  || (n =? 13)%nat || (n =? 32)%nat || (n =? 160)%nat.

(** The plain objects of the code inherit these members from
    [Object.prototype]; indexing such an object with one of these keys
    gives the inherited member unless the object has a property of its own
    under that key. *)
Definition objectPrototypeKeys : list string :=
  ["constructor"; "__defineGetter__"; "__defineSetter__"; "hasOwnProperty";
   "__lookupGetter__"; "__lookupSetter__"; "isPrototypeOf";
   "propertyIsEnumerable"; "toString"; "valueOf"; "__proto__";
   "toLocaleString"].

(** A value the code types as [string]: a string, or the member of
    [Object.prototype] (a function, or for [__proto__] the prototype
    object) found under an inherited key. *)
Inductive Message : Type :=
| Text (s : string)
| Inherited (key : string).

(** Truthiness of a [Message | null]: functions and objects are truthy. *)
Definition truthyMessage (v : option Message) : bool :=
  match v with
  | None => false
  | Some (Text s) => negb (s =? "")
  | Some (Inherited _) => true
  end.

Fixpoint trimStart (s : string) : string :=
  match s with
  | EmptyString => EmptyString
  | String c s' => if isSpace c then trimStart s' else s
  end.

Definition reverse (s : string) : string :=
  string_of_list_ascii (rev (list_ascii_of_string s)).

Definition trim (s : string) : string :=
  reverse (trimStart (reverse (trimStart s))).

End JS.

(** ** Regular expressions, matched by derivatives

    Enough of the JavaScript regex language for the two validators of
    [lib/utils]: character classes, sequence, alternation, repetition, and
    intersection (a look-ahead at the start of an anchored pattern is the
    intersection with "the look-ahead's pattern, then anything"). *)

Module Regex.

Inductive regex : Type :=
| Void
| Eps
| Class (p : ascii -> bool)
| Seq (r s : regex)
| Alt (r s : regex)
| And (r s : regex)
| Star (r : regex).

Fixpoint nullable (r : regex) : bool :=
  match r with
  | Void => false
  | Eps => true
  | Class _ => false
  | Seq r s => nullable r && nullable s
  | Alt r s => nullable r || nullable s
  | And r s => nullable r && nullable s
  | Star _ => true
  end.

Fixpoint deriv (c : ascii) (r : regex) : regex :=
  match r with
  | Void => Void
  | Eps => Void
  | Class p => if p c then Eps else Void
  | Seq r s =>
      if nullable r then Alt (Seq (deriv c r) s) (deriv c s)
      else Seq (deriv c r) s
  | Alt r s => Alt (deriv c r) (deriv c s)
  | And r s => And (deriv c r) (deriv c s)
  | Star r => Seq (deriv c r) (Star r)
  end.

(** [/^r$/.test(s)] *)
Fixpoint test (r : regex) (s : string) : bool :=
  match s with
  | EmptyString => nullable r
  | String c s' => test (deriv c r) s'
  end.

Definition Plus (r : regex) : regex := Seq r (Star r).

(** [r{n,}] *)
Fixpoint AtLeast (n : nat) (r : regex) : regex :=
  match n with
  | O => Star r
  | S n' => Seq r (AtLeast n' r)
  end.

Definition Chr (c : ascii) : regex := Class (Ascii.eqb c).

Definition between (lo hi : nat) (c : ascii) : bool :=
  let n := nat_of_ascii c in (lo <=? n)%nat && (n <=? hi)%nat.

Definition lower : ascii -> bool := between 97 122.
Definition upper : ascii -> bool := between 65 90.
Definition digit : ascii -> bool := between 48 57.

(** [.] : any code unit but a line terminator *)
Definition dot (c : ascii) : bool :=
  let n := nat_of_ascii c in negb ((n =? 10)%nat || (n =? 13)%nat).

Definition any (_ : ascii) : bool := true.

(** [(?=r)] at the start of an anchored pattern [/^(?=r)body$/] *)
Definition Lookahead (r body : regex) : regex :=
  And (Seq r (Star (Class any))) body.

End Regex.

(** ** lib/utils *)

Module Utils.
Import Regex.

(** [[^\s@]] *)
Definition notSpaceAt (c : ascii) : bool :=
  negb (JS.isSpace c || Ascii.eqb c "@").

(** [/^[^\s@]+@[^\s@]+\.[^\s@]+$/] *)
Definition emailRegex : regex :=
  Seq (Plus (Class notSpaceAt))
    (Seq (Chr "@")
       (Seq (Plus (Class notSpaceAt))
          (Seq (Chr ".") (Plus (Class notSpaceAt))))).

Definition isValidEmail (email : string) : bool := test emailRegex email.

(** [[a-zA-Z\d@$!%*?&]] *)
Definition passwordChar (c : ascii) : bool :=
  lower c || upper c || digit c
  || existsb (Ascii.eqb c) (list_ascii_of_string "@$!%*?&").

(** [/^(?=.*[a-z])(?=.*[A-Z])(?=.*\d)[a-zA-Z\d@$!%*?&]{8,}$/] *)
Definition passwordRegex : regex :=
  Lookahead (Seq (Star (Class dot)) (Class lower))
    (Lookahead (Seq (Star (Class dot)) (Class upper))
       (Lookahead (Seq (Star (Class dot)) (Class digit))
          (AtLeast 8 (Class passwordChar)))).

Definition isValidPassword (password : string) : bool :=
  test passwordRegex password.

(** The own properties of the [errorMessages] table. *)
Definition errorMessages : list (string * string) :=
  [ ("Invalid login credentials",
     "Credenciales de inicio de sesión inválidas");
    ("Email not confirmed",
     "Email no confirmado. Por favor, verifica tu correo electrónico");
    ("User already registered", "El usuario ya está registrado");
    ("Password should be at least 6 characters",
     "La contraseña debe tener al menos 6 caracteres");
    ("Unable to validate email address",
     "No se pudo validar la dirección de email");
    ("Signup is disabled", "El registro está deshabilitado");
    ("Too many requests",
     "Demasiadas solicitudes. Intenta de nuevo más tarde") ].

Fixpoint lookup (k : string) (t : list (string * string)) : option string :=
  match t with
  | [] => None
  | (k', v) :: t' => if k =? k' then Some v else lookup k t'
  end.

(** [errorMessages[error] || 'Ha ocurrido un error. Intenta de nuevo'].
    [errorMessages] is an object literal: a key that is not one of its own
    is looked up in [Object.prototype], whose members are all truthy. *)
Definition formatAuthError (error : string) : JS.Message :=
  match lookup error errorMessages with
  | Some v => if JS.truthy (Some v) then JS.Text v
              else JS.Text "Ha ocurrido un error. Intenta de nuevo"
  | None =>
      if JS.includes JS.objectPrototypeKeys error
      then JS.Inherited error
      else JS.Text "Ha ocurrido un error. Intenta de nuevo"
  end.

End Utils.

(** ** Remote calls: results, exceptions and the call trace *)

(** What the code asked of the identity provider and of the profile
    table, in the order it asked. *)
Inductive Call : Type :=
| CallGetSession
| CallSelectRole (id : string)
| CallSignInWithPassword (email password : string)
| CallSignUp (email password : string)
| CallInsertProfile (id clinic_id full_name role : string)
| CallAdminDeleteUser (id : string)
| CallSelectProfile (id : string)
| CallSignOut
| CallGetUser.

(** An awaited remote call either resolves to a value or rejects. *)
Inductive Result (A : Type) : Type :=
| Ok (a : A)
| Throw.
Arguments Ok {A} a.
Arguments Throw {A}.

(** A computation: the calls it issued, and how it ended. *)
Definition M (A : Type) : Type := (list Call * Result A)%type.

Definition ret {A} (a : A) : M A := ([], Ok a).

Definition bind {A B} (m : M A) (k : A -> M B) : M B :=
  match m with
  | (t, Ok a) => let (t', r) := k a in ((t ++ t')%list, r)
  | (t, Throw) => (t, Throw)
  end.

(** [try { m } catch { h }] *)
Definition try_catch {A} (m : M A) (h : M A) : M A :=
  match m with
  | (t, Ok a) => (t, Ok a)
  | (t, Throw) => let (t', r) := h in ((t ++ t')%list, r)
  end.

(** [await] of one remote call *)
Definition await {A} (c : Call) (answer : Result A) : M A := ([c], answer).

Definition calls {A} (m : M A) : list Call := fst m.
Definition outcome {A} (m : M A) : Result A := snd m.

Notation "x <- c ;; k" := (bind c (fun x => k))
  (at level 61, c at next level, right associativity).

(** ** Shared data *)

(** The identity provider's user object. *)
Record User : Type := mkUser { user_id : string; user_email : string }.

Record Session : Type := mkSession { session_user : User }.

(** [{ data, error }] as answered by [.single()] *)
Record Single (A : Type) : Type := mkSingle {
  data : option A;
  error : option string
}.
Arguments mkSingle {A} data error.
Arguments data {A} s.
Arguments error {A} s.

(** ** The edge middleware *)

Module Middleware.

(** [new URL(path, base)] with its search parameters. *)
Record URL : Type := mkURL {
  base : string;
  pathname : string;
  searchParams : list (string * string)
}.

Definition new_URL (path : string) (req_url : string) : URL :=
  mkURL req_url path [].

(** [url.searchParams.set(name, value)]: the first entry named [name] takes
    the value and later ones are dropped; with no such entry, one is
    appended. *)
Fixpoint searchParams_set (name value : string) (ps : list (string * string))
  : list (string * string) :=
  match ps with
  | [] => [(name, value)]
  | (n, v) :: ps' =>
      if n =? name
      then (name, value) :: filter (fun p => negb (fst p =? name)) ps'
      else (n, v) :: searchParams_set name value ps'
  end.

Definition set_param (name value : string) (u : URL) : URL :=
  mkURL (base u) (pathname u) (searchParams_set name value (searchParams u)).

(** [NextResponse.next()] or [NextResponse.redirect(url)] *)
Inductive Response : Type :=
| Next
| Redirect (url : URL).

Record NextRequest : Type := mkRequest {
  url : string;
  nextUrl_pathname : string
}.

(** The row selected by [.from('profiles').select('role')]. *)
Record RoleRow : Type := mkRoleRow { role : string }.

(** The Supabase client the middleware builds for the request. *)
Record ServerClient : Type := mkServerClient {
  auth_getSession : Result (option Session);
  profiles_role_single : string -> Result (Single RoleRow)
}.

Definition publicRoutes : list string :=
  ["/login"; "/register"; "/auth/callback"; "/auth/reset-password"].
Definition authRoutes : list string := ["/login"; "/register"].
Definition adminRoutes : list string := ["/admin"; "/settings"; "/users"].
Definition dentistRoutes : list string := ["/reports"; "/analytics"].

Definition matches (routes : list string) (pathname : string) : bool :=
  JS.some (fun route => JS.startsWith pathname route) routes.

Definition isPublicRoute : string -> bool := matches publicRoutes.
Definition isAuthRoute : string -> bool := matches authRoutes.
Definition isAdminRoute : string -> bool := matches adminRoutes.
Definition isDentistRoute : string -> bool := matches dentistRoutes.

Definition isSome {A} (o : option A) : bool :=
  match o with Some _ => true | None => false end.

Definition dashboard (req : NextRequest) : URL := new_URL "/dashboard" (url req).

Definition loginWithReturn (req : NextRequest) : URL :=
  set_param "redirectTo" (nextUrl_pathname req) (new_URL "/login" (url req)).

(** The body of [if (profile) { ... }]: [Some r] when it returns [r],
    [None] when control falls out of it. *)
Definition roleChecks (req : NextRequest) (profile : RoleRow) : option Response :=
  let pathname := nextUrl_pathname req in
  if isAdminRoute pathname && negb (role profile =? "admin")
  then Some (Redirect (dashboard req))
  else if isDentistRoute pathname
          && negb (JS.includes ["admin"; "dentist"] (role profile))
  then Some (Redirect (dashboard req))
  else None.

(** The awaited profile query and the checks that follow it. *)
Definition profileBlock (supabase : ServerClient) (req : NextRequest)
  (session : Session) : M (option Response) :=
  q <- await (CallSelectRole (user_id (session_user session)))
         (profiles_role_single supabase (user_id (session_user session))) ;;
  match data q with
  | Some profile => ret (roleChecks req profile)
  | None => ret None
  end.

(** Everything up to the profile block is the same in both revisions;
    [block] is the revision's way of running it. *)
Definition middlewareWith
  (block : ServerClient -> NextRequest -> Session -> M (option Response))
  (supabase : ServerClient) (req : NextRequest) : M Response :=
  session <- await CallGetSession (auth_getSession supabase) ;;
  let pathname := nextUrl_pathname req in
  if isAuthRoute pathname && isSome session
  then ret (Redirect (dashboard req))
  else if (pathname =? "/") && isSome session
  then ret (Redirect (dashboard req))
  else if negb (isPublicRoute pathname) && negb (isSome session)
  then ret (Redirect (loginWithReturn req))
  else
    match session with
    | Some s =>
        if negb (isPublicRoute pathname)
        then r <- block supabase req s ;;
             match r with
             | Some response => ret response
             | None => ret Next
             end
        else ret Next
    | None => ret Next
    end.

(** The auth-helpers revision: the profile query is awaited bare, so a
    rejection rejects the middleware. *)
Module AuthHelpers.
Definition middleware : ServerClient -> NextRequest -> M Response :=
  middlewareWith profileBlock.
End AuthHelpers.

(** The [@supabase/ssr] revision: the profile block sits in
    [try { ... } catch (error) { console.error(...) }]. *)
Module Ssr.
Definition middleware : ServerClient -> NextRequest -> M Response :=
  middlewareWith
    (fun supabase req s => try_catch (profileBlock supabase req s) (ret None)).
End Ssr.

(** The three-way reading of a response. *)
Inductive Decision : Type :=
| Allow
| ToLogin
| ToDashboard
| ToOther.

Definition decision (r : Response) : Decision :=
  match r with
  | Next => Allow
  | Redirect u =>
      if pathname u =? "/login" then ToLogin
      else if pathname u =? "/dashboard" then ToDashboard
      else ToOther
  end.

End Middleware.

(** ** lib/types/auth *)

Record UserProfile : Type := mkUserProfile {
  profile_id : string;
  profile_clinic_id : string;
  profile_full_name : string;
  profile_role : string;
  profile_created_at : string
}.

Record AuthUser : Type := mkAuthUser {
  authuser_id : string;
  authuser_email : string;
  authuser_role : string;
  authuser_profile : UserProfile;
  isAuthenticated : bool
}.

Record LoginCredentials : Type := mkLoginCredentials {
  login_email : string;
  login_password : string
}.

Record RegisterData : Type := mkRegisterData {
  register_email : string;
  register_password : string;
  register_full_name : string;
  register_role : string;
  register_clinic_id : string
}.

(** ** AuthService *)

Module AuthService.

(** [{ data: { user }, error }] of [signInWithPassword] and [signUp];
    [auth_error] holds the error's [message]. *)
Record AuthResponse : Type := mkAuthResponse {
  auth_user : option User;
  auth_error : option string
}.

(** The Supabase client of the browser. *)
Record BrowserClient : Type := mkBrowserClient {
  auth_signInWithPassword : string -> string -> Result AuthResponse;
  auth_signUp : string -> string -> Result AuthResponse;
  auth_signOut : Result (option string);
  auth_getUser : Result (option User);
  auth_admin_deleteUser : string -> Result unit;
  profiles_insert : string -> string -> string -> string -> Result (option string);
  profiles_select_single : string -> Result (Single UserProfile)
}.

(** [{ user, error }] *)
Record UserResult : Type := mkUserResult {
  result_user : option AuthUser;
  result_error : option JS.Message
}.

(** [{ user: null, error }] *)
Definition failedWith (error : JS.Message) : UserResult :=
  mkUserResult None (Some error).

Definition failed (message : string) : UserResult :=
  failedWith (JS.Text message).

Definition isSome {A} (o : option A) : bool :=
  match o with Some _ => true | None => false end.

Definition getUserProfile (supabase : BrowserClient) (userId : string)
  : M (option UserProfile) :=
  try_catch
    (q <- await (CallSelectProfile userId)
            (profiles_select_single supabase userId) ;;
     if isSome (error q) || negb (isSome (data q))
     then ret None
     else ret (data q))
    (ret None).

Definition toAuthUser (u : User) (profile : UserProfile) : AuthUser :=
  mkAuthUser (user_id u) (user_email u) (profile_role profile) profile true.

Definition login (supabase : BrowserClient) (credentials : LoginCredentials)
  : M UserResult :=
  try_catch
    (if negb (Utils.isValidEmail (login_email credentials))
     then ret (failed "Email inválido")
     else if (login_password credentials =? "")
             || (String.length (login_password credentials) <? 6)%nat
     then ret (failed "La contraseña debe tener al menos 6 caracteres")
     else
       r <- await (CallSignInWithPassword (login_email credentials)
                     (login_password credentials))
              (auth_signInWithPassword supabase (login_email credentials)
                 (login_password credentials)) ;;
       match auth_error r with
       | Some message => ret (failedWith (Utils.formatAuthError message))
       | None =>
           match auth_user r with
           | None => ret (failed "Usuario no encontrado")
           | Some u =>
               profile <- getUserProfile supabase (user_id u) ;;
               match profile with
               | None => ret (failed "Perfil de usuario no encontrado")
               | Some p => ret (mkUserResult (Some (toAuthUser u p)) None)
               end
           end
       end)
    (ret (failed "Error interno del servidor")).

Definition register (supabase : BrowserClient) (data : RegisterData)
  : M UserResult :=
  try_catch
    (if negb (Utils.isValidEmail (register_email data))
     then ret (failed "Email inválido")
     else if negb (Utils.isValidPassword (register_password data))
     then ret (failed "La contraseña debe tener al menos 8 caracteres, una mayúscula, una minúscula y un número")
     else if (register_full_name data =? "")
             || (String.length (JS.trim (register_full_name data)) <? 2)%nat
     then ret (failed "El nombre completo es requerido")
     else if register_clinic_id data =? ""
     then ret (failed "ID de clínica es requerido")
     else
       r <- await (CallSignUp (register_email data) (register_password data))
              (auth_signUp supabase (register_email data)
                 (register_password data)) ;;
       match auth_error r with
       | Some message => ret (failedWith (Utils.formatAuthError message))
       | None =>
           match auth_user r with
           | None => ret (failed "Error al crear usuario")
           | Some u =>
               profileError <-
                 await (CallInsertProfile (user_id u) (register_clinic_id data)
                          (register_full_name data) (register_role data))
                   (profiles_insert supabase (user_id u)
                      (register_clinic_id data) (register_full_name data)
                      (register_role data)) ;;
               if isSome profileError
               then
                 _ <- await (CallAdminDeleteUser (user_id u))
                        (auth_admin_deleteUser supabase (user_id u)) ;;
                 ret (failed "Error al crear perfil de usuario")
               else
                 profile <- getUserProfile supabase (user_id u) ;;
                 match profile with
                 | None => ret (failed "Error al obtener perfil de usuario")
                 | Some p => ret (mkUserResult (Some (toAuthUser u p)) None)
                 end
           end
       end)
    (ret (failed "Error interno del servidor")).

(** [{ error }] of [logout] *)
Definition logout (supabase : BrowserClient) : M (option JS.Message) :=
  try_catch
    (e <- await CallSignOut (auth_signOut supabase) ;;
     match e with
     | Some message => ret (Some (Utils.formatAuthError message))
     | None => ret None
     end)
    (ret (Some (JS.Text "Error interno del servidor"))).

Definition getCurrentUser (supabase : BrowserClient) : M (option AuthUser) :=
  try_catch
    (user <- await CallGetUser (auth_getUser supabase) ;;
     match user with
     | None => ret None
     | Some u =>
         profile <- getUserProfile supabase (user_id u) ;;
         match profile with
         | None => ret None
         | Some p => ret (Some (toAuthUser u p))
         end
     end)
    (ret None).

End AuthService.

(** ** AuthProvider: the client auth state *)

Module AuthProvider.

(** The four [useState] cells of the provider.  [error] holds what
    [setError] was last handed: [null] or a string is the state itself; an
    inherited member of [Object.prototype] is what React derives the state
    from (it runs a function as an updater), which is not computed here. *)
Record AuthState : Type := mkAuthState {
  user : option AuthUser;
  loading : bool;
  error : option JS.Message;
  initialized : bool
}.

(** [useState(null)], [useState(true)], [useState(null)], [useState(false)] *)
Definition initialState : AuthState := mkAuthState None true None false.

Definition setUser (u : option AuthUser) (st : AuthState) : AuthState :=
  mkAuthState u (loading st) (error st) (initialized st).
Definition setLoading (b : bool) (st : AuthState) : AuthState :=
  mkAuthState (user st) b (error st) (initialized st).
Definition setError (e : option JS.Message) (st : AuthState) : AuthState :=
  mkAuthState (user st) (loading st) e (initialized st).
Definition setInitialized (b : bool) (st : AuthState) : AuthState :=
  mkAuthState (user st) (loading st) (error st) b.

(** Each action runs in two parts: what it does before its [await]
    ([_begin]), and what it does once the awaited service call has settled
    ([_settle], which ends with the [finally] block). *)

Definition initializeAuth_begin (st : AuthState) : AuthState :=
  setLoading true st.

Definition initializeAuth_settle (r : Result (option AuthUser))
  (st : AuthState) : AuthState :=
  let st' :=
    match r with
    | Ok currentUser => setUser currentUser st
    | Throw =>
        setError (Some (JS.Text "Error al cargar la sesión del usuario")) st
    end in
  setInitialized true (setLoading false st').

Definition initializeAuth (supabase : AuthService.BrowserClient)
  (st : AuthState) : AuthState :=
  initializeAuth_settle (outcome (AuthService.getCurrentUser supabase))
    (initializeAuth_begin st).

(** The mount effect: [initializeAuth()] where [window] exists, otherwise
    [setLoading(false); setInitialized(true)]. *)
Definition mountEffect (hasWindow : bool)
  (supabase : AuthService.BrowserClient) (st : AuthState) : AuthState :=
  if hasWindow then initializeAuth supabase st
  else setInitialized true (setLoading false st).

(** [setLoading(true); setError(null)] *)
Definition action_begin (st : AuthState) : AuthState :=
  setError None (setLoading true st).

(** The continuation shared, line for line, by [login], [register] and
    [updateProfile]. *)
Definition userAction_settle (r : Result AuthService.UserResult)
  (st : AuthState) : AuthState :=
  let st' :=
    match r with
    | Ok res =>
        if JS.truthyMessage (AuthService.result_error res)
        then setError (AuthService.result_error res) st
        else
          match AuthService.result_user res with
          | Some authUser => setUser (Some authUser) st
          | None => st
          end
    | Throw => setError (Some (JS.Text "Error interno del servidor")) st
    end in
  setLoading false st'.

Definition login_begin : AuthState -> AuthState := action_begin.
Definition login_settle := userAction_settle.

Definition login (supabase : AuthService.BrowserClient)
  (credentials : LoginCredentials) (st : AuthState) : AuthState :=
  login_settle (outcome (AuthService.login supabase credentials))
    (login_begin st).

Definition register_begin : AuthState -> AuthState := action_begin.
Definition register_settle := userAction_settle.

Definition register (supabase : AuthService.BrowserClient)
  (data : RegisterData) (st : AuthState) : AuthState :=
  register_settle (outcome (AuthService.register supabase data))
    (register_begin st).

Definition logout_begin : AuthState -> AuthState := action_begin.

Definition logout_settle (r : Result (option JS.Message)) (st : AuthState)
  : AuthState :=
  let st' :=
    match r with
    | Ok authError =>
        if JS.truthyMessage authError
        then setError authError st
        else setUser None st
    | Throw => setError (Some (JS.Text "Error interno del servidor")) st
    end in
  setLoading false st'.

Definition logout (supabase : AuthService.BrowserClient) (st : AuthState)
  : AuthState :=
  logout_settle (outcome (AuthService.logout supabase)) (logout_begin st).

Definition clearError (st : AuthState) : AuthState := setError None st.

(** *** One client instance with overlapping [login] calls

    A call to [login] runs its first part at once: the state updates of
    [login_begin], and [AuthService.login] up to the request it awaits.
    The call then stays in flight until its answer arrives and
    [login_settle] runs. *)

Record Client : Type := mkClient {
  state : AuthState;
  inflight : list (M AuthService.UserResult)
}.

Definition call_login (supabase : AuthService.BrowserClient)
  (credentials : LoginCredentials) (c : Client) : Client :=
  mkClient (login_begin (state c))
    (inflight c ++ [AuthService.login supabase credentials])%list.

Definition settle_login (c : Client) : Client :=
  match inflight c with
  | [] => c
  | p :: ps => mkClient (login_settle (outcome p) (state c)) ps
  end.

Definition isExchange (c : Call) : bool :=
  match c with
  | CallSignInWithPassword _ _ => true
  | _ => false
  end.

(** How many credential exchanges the calls in flight have issued. *)
Definition exchangesInFlight (c : Client) : nat :=
  length (filter isExchange (concat (map calls (inflight c)))).

End AuthProvider.

(** ** AuthGuard *)

Module Guard.

(** What the component renders, and the [router.push] it performs. *)
Inductive Rendered : Type :=
| Initializing
| Redirecting (pushed : option string)
| Children.

Definition isSome {A} (o : option A) : bool :=
  match o with Some _ => true | None => false end.

(** [allowedRoles.length > 0 && user && !allowedRoles.includes(user.role)] *)
Definition roleRefused (allowedRoles : list string) (user : option AuthUser)
  : bool :=
  (0 <? length allowedRoles)%nat
  && match user with
     | Some u => negb (JS.includes allowedRoles (authuser_role u))
     | None => false
     end.

Definition AuthGuard (requireAuth : bool) (allowedRoles : list string)
  (user : option AuthUser) (loading : bool) (isClient : bool) : Rendered :=
  if negb isClient || loading then Initializing
  else if requireAuth && negb (isSome user)
  then Redirecting (if isClient then Some "/login" else None)
  else if roleRefused allowedRoles user
  then Redirecting (if isClient then Some "/dashboard" else None)
  else if negb requireAuth && isSome user
  then Redirecting (if isClient then Some "/dashboard" else None)
  else Children.

(** The guard's rendering read as an access decision; while it shows the
    initial spinner it has decided nothing. *)
Definition decision (r : Rendered) : option Middleware.Decision :=
  match r with
  | Initializing => None
  | Children => Some Middleware.Allow
  | Redirecting (Some target) =>
      if target =? "/login" then Some Middleware.ToLogin
      else if target =? "/dashboard" then Some Middleware.ToDashboard
      else Some Middleware.ToOther
  | Redirecting None => None
  end.

End Guard.

(** ** Vocabulary of the statements *)

Module Terms.
Import Middleware.

(** Both revisions of the middleware. *)
Definition revisions : list (ServerClient -> NextRequest -> M Response) :=
  [AuthHelpers.middleware; Ssr.middleware].

(** The answer of the profile query for the session's user. *)
Definition profileQuery (supabase : ServerClient) (s : Session)
  : Result (Single RoleRow) :=
  profiles_role_single supabase (user_id (session_user s)).

(** The role of the profile the query resolves to; [None] when the query
    rejects or carries no row. *)
Definition resolvedRole (supabase : ServerClient) (s : Session)
  : option string :=
  match profileQuery supabase s with
  | Ok q => option_map role (data q)
  | Throw => None
  end.

(** A protected path no role rule applies to. *)
Definition plainProtected (p : string) : bool :=
  negb (isPublicRoute p) && negb (p =? "/")
  && negb (isAdminRoute p) && negb (isDentistRoute p).

(** The response read three ways, or [None] when the middleware rejects. *)
Definition decided (m : M Response) : option Decision :=
  match outcome m with
  | Ok r => Some (decision r)
  | Throw => None
  end.

(** The roles a path admits, as the middleware's two role rules have
    them; [[]] stands for "no role rule". *)
Definition rolesAdmitted (p : string) : list string :=
  if isAdminRoute p then ["admin"]
  else if isDentistRoute p then ["admin"; "dentist"]
  else [].

(** The decision of the guard once it is mounted on the client and the
    provider has finished loading. *)
Definition guard (requireAuth : bool) (allowedRoles : list string)
  (user : option AuthUser) : option Decision :=
  Guard.decision (Guard.AuthGuard requireAuth allowedRoles user false true).

(** The client's [user] reflects the server's view: no user for no
    session, and a user whose role is the one the profile query resolves
    to. *)
Definition mirrors (supabase : ServerClient) (user : option AuthUser) : Prop :=
  match user with
  | None => auth_getSession supabase = Ok None
  | Some u =>
      exists s, auth_getSession supabase = Ok (Some s)
                /\ resolvedRole supabase s = Some (authuser_role u)
  end.

(** The input checks [AuthService.login] makes before it contacts the
    identity provider. *)
Definition passesLoginChecks (credentials : LoginCredentials) : bool :=
  Utils.isValidEmail (login_email credentials)
  && negb ((login_password credentials =? "")
           || (String.length (login_password credentials) <? 6)%nat).

(** Sign-up answered with a user and no error. *)
Definition credentialsCreated (supabase : AuthService.BrowserClient)
  (data : RegisterData) (u : User) : Prop :=
  AuthService.auth_signUp supabase (register_email data)
    (register_password data)
  = Ok (AuthService.mkAuthResponse (Some u) None).

(** The profile query of the browser client rejected, answered with an
    error, or carried no row. *)
Definition profileMissing (supabase : AuthService.BrowserClient)
  (userId : string) : Prop :=
  match AuthService.profiles_select_single supabase userId with
  | Ok q => error q <> None \/ data q = None
  | Throw => True
  end.

(** Provisioning the profile failed: the insert into [profiles] rejected
    or answered with an error, or it went through and the profile could
    not be read back. *)
Definition profileCreationFails (supabase : AuthService.BrowserClient)
  (data : RegisterData) (u : User) : Prop :=
  match AuthService.profiles_insert supabase (user_id u)
          (register_clinic_id data) (register_full_name data)
          (register_role data) with
  | Ok (Some _) => True
  | Ok None => profileMissing supabase (user_id u)
  | Throw => True
  end.

End Terms.

(** ** Sample requests, clients and users *)

Module Samples.
Import Middleware.

Definition ana : User := mkUser "u-1" "ana@clinic.test".
Definition session : Session := mkSession ana.

Definition request (path : string) : NextRequest :=
  mkRequest "https://clinic.test" path.

Definition found (r : string) : Result (Single RoleRow) :=
  Ok (mkSingle (Some (mkRoleRow r)) None).
Definition nothing : Result (Single RoleRow) :=
  Ok (mkSingle None (Some "PGRST116")).

Definition anonymous : ServerClient :=
  mkServerClient (Ok None) (fun _ => nothing).
Definition signedIn (q : Result (Single RoleRow)) : ServerClient :=
  mkServerClient (Ok (Some session)) (fun _ => q).

Definition anaProfile (r : string) : UserProfile :=
  mkUserProfile "u-1" "c-1" "Ana Ruiz" r "2024-01-01".
Definition anaUser (r : string) : AuthUser :=
  AuthService.toAuthUser ana (anaProfile r).

Definition credentials : LoginCredentials :=
  mkLoginCredentials "ana@clinic.test" "secret1".
Definition registration : RegisterData :=
  mkRegisterData "ana@clinic.test" "Secret123" "Ana Ruiz" "dentist" "c-1".

Definition noRow : Single UserProfile := mkSingle None (Some "PGRST116").

(** A provider that accepts the credentials and has Ana's profile. *)
Definition healthy : AuthService.BrowserClient :=
  AuthService.mkBrowserClient
    (fun _ _ => Ok (AuthService.mkAuthResponse (Some ana) None))
    (fun _ _ => Ok (AuthService.mkAuthResponse (Some ana) None))
    (Ok None)
    (Ok (Some ana))
    (fun _ => Ok tt)
    (fun _ _ _ _ => Ok None)
    (fun _ => Ok (mkSingle (Some (anaProfile "dentist")) None)).

(** The same provider, whose sign-out answers with an error. *)
Definition signOutFails : AuthService.BrowserClient :=
  AuthService.mkBrowserClient
    (AuthService.auth_signInWithPassword healthy)
    (AuthService.auth_signUp healthy)
    (Ok (Some "Too many requests"))
    (AuthService.auth_getUser healthy)
    (AuthService.auth_admin_deleteUser healthy)
    (AuthService.profiles_insert healthy)
    (AuthService.profiles_select_single healthy).

(** Sign-up succeeds, the insert into [profiles] is refused. *)
Definition insertFails : AuthService.BrowserClient :=
  AuthService.mkBrowserClient
    (AuthService.auth_signInWithPassword healthy)
    (AuthService.auth_signUp healthy)
    (AuthService.auth_signOut healthy)
    (AuthService.auth_getUser healthy)
    (AuthService.auth_admin_deleteUser healthy)
    (fun _ _ _ _ => Ok (Some "permission denied"))
    (fun _ => Ok noRow).

(** The identity provider knows the user, the profile table has no row. *)
Definition noProfile : AuthService.BrowserClient :=
  AuthService.mkBrowserClient
    (AuthService.auth_signInWithPassword healthy)
    (AuthService.auth_signUp healthy)
    (AuthService.auth_signOut healthy)
    (Ok (Some ana))
    (AuthService.auth_admin_deleteUser healthy)
    (AuthService.profiles_insert healthy)
    (fun _ => Ok noRow).

Definition signedInState : AuthProvider.AuthState :=
  AuthProvider.mkAuthState (Some (anaUser "dentist")) false None true.
Definition anonymousState : AuthProvider.AuthState :=
  AuthProvider.mkAuthState None false None true.

End Samples.

(** ** What a pattern denotes *)

Module RegexSem.
Import Regex.

Inductive matches : regex -> string -> Prop :=
| MEps : matches Eps ""
| MClass p c : p c = true -> matches (Class p) (String c "")
| MSeq r s x y : matches r x -> matches s y -> matches (Seq r s) (x ++ y)
| MAltL r s x : matches r x -> matches (Alt r s) x
| MAltR r s x : matches s x -> matches (Alt r s) x
| MAnd r s x : matches r x -> matches s x -> matches (And r s) x
| MStarNil r : matches (Star r) ""
| MStarApp r x y :
    matches r x -> matches (Star r) y -> matches (Star r) (x ++ y).

(** Every code unit of [s] is in the class. *)
Fixpoint allChars (p : ascii -> bool) (s : string) : bool :=
  match s with
  | EmptyString => true
  | String c s' => p c && allChars p s'
  end.

(** Some code unit of [s] is in the class. *)
Fixpoint someChar (p : ascii -> bool) (s : string) : bool :=
  match s with
  | EmptyString => false
  | String c s' => p c || someChar p s'
  end.

End RegexSem.

(** ** lib/utils, continued *)

Module UtilsMore.

(** [str.replace(/[<>]/g, '')] *)
Fixpoint sanitizeString (str : string) : string :=
  match str with
  | EmptyString => EmptyString
  | String c rest =>
      if Ascii.eqb c "<" || Ascii.eqb c ">"
      then sanitizeString rest
      else String c (sanitizeString rest)
  end.

End UtilsMore.

(** ** lib/types/auth, continued *)

Module Permissions.

Inductive UserRole : Type := admin | dentist | receptionist.

(** The string a role is at run time. *)
Definition roleName (r : UserRole) : string :=
  match r with
  | admin => "admin"
  | dentist => "dentist"
  | receptionist => "receptionist"
  end.

Record RolePermissions : Type := mkRolePermissions {
  canManageUsers : bool;
  canManagePatients : bool;
  canManageAppointments : bool;
  canViewReports : bool;
  canManageSettings : bool;
  canAccessBilling : bool
}.

Definition ROLE_PERMISSIONS (r : UserRole) : RolePermissions :=
  match r with
  | admin => mkRolePermissions true true true true true true
  | dentist => mkRolePermissions false true true true false false
  | receptionist => mkRolePermissions false true true false false false
  end.

End Permissions.

(** ** AuthService, continued: password reset, password and profile update *)

Record PasswordUpdateData : Type := mkPasswordUpdateData {
  currentPassword : string;
  newPassword : string
}.

(** [Partial<UserProfile>] *)
Record ProfilePatch : Type := mkProfilePatch {
  patch_id : option string;
  patch_clinic_id : option string;
  patch_full_name : option string;
  patch_role : option string;
  patch_created_at : option string
}.

Module Account.

(** The remote calls of these methods, next to the earlier ones. *)
Inductive AccountCall : Type :=
| Earlier (c : Call)
| CallResetPasswordForEmail (email redirectTo : string)
| CallUpdateUser (password : string)
| CallUpdateProfile (id : string) (patch : ProfilePatch).

Definition T (A : Type) : Type := (list AccountCall * Result A)%type.

Definition pure {A} (a : A) : T A := ([], Ok a).

Definition andThen {A B} (m : T A) (k : A -> T B) : T B :=
  match m with
  | (t, Ok a) => let (t', r) := k a in ((t ++ t')%list, r)
  | (t, Throw) => (t, Throw)
  end.

Definition tryCatch {A} (m : T A) (h : T A) : T A :=
  match m with
  | (t, Ok a) => (t, Ok a)
  | (t, Throw) => let (t', r) := h in ((t ++ t')%list, r)
  end.

Definition awaiting {A} (c : AccountCall) (answer : Result A) : T A :=
  ([c], answer).

(** A computation over the earlier calls, run here. *)
Definition lift {A} (m : M A) : T A := (map Earlier (calls m), outcome m).

Notation "x <~ c ;; k" := (andThen c (fun x => k))
  (at level 61, c at next level, right associativity).

(** The browser client together with the answers to the three further
    requests. *)
Record AccountClient : Type := mkAccountClient {
  browser : AuthService.BrowserClient;
  auth_resetPasswordForEmail : string -> string -> Result (option string);
  auth_updateUser : string -> Result (option string);
  profiles_update : ProfilePatch -> string -> Result (option string)
}.

(** [resetPassword(email)]; [origin] is [window.location.origin]. *)
Definition resetPassword (supabase : AccountClient) (origin : string)
  (email : string) : T (option JS.Message) :=
  tryCatch
    (if negb (Utils.isValidEmail email)
     then pure (Some (JS.Text "Email inválido"))
     else
       e <~ awaiting
              (CallResetPasswordForEmail email (origin ++ "/auth/reset-password"))
              (auth_resetPasswordForEmail supabase email
                 (origin ++ "/auth/reset-password")) ;;
       match e with
       | Some message => pure (Some (Utils.formatAuthError message))
       | None => pure None
       end)
    (pure (Some (JS.Text "Error interno del servidor"))).

Definition updatePassword (supabase : AccountClient)
  (data : PasswordUpdateData) : T (option JS.Message) :=
  tryCatch
    (if negb (Utils.isValidPassword (newPassword data))
     then pure (Some (JS.Text "La nueva contraseña debe tener al menos 8 caracteres, una mayúscula, una minúscula y un número"))
     else
       e <~ awaiting (CallUpdateUser (newPassword data))
              (auth_updateUser supabase (newPassword data)) ;;
       match e with
       | Some message => pure (Some (Utils.formatAuthError message))
       | None => pure None
       end)
    (pure (Some (JS.Text "Error interno del servidor"))).

Definition updateProfile (supabase : AccountClient) (profile : ProfilePatch)
  : T AuthService.UserResult :=
  tryCatch
    (user <~ awaiting (Earlier CallGetUser)
               (AuthService.auth_getUser (browser supabase)) ;;
     match user with
     | None => pure (AuthService.failed "Usuario no autenticado")
     | Some u =>
         e <~ awaiting (CallUpdateProfile (user_id u) profile)
                (profiles_update supabase profile (user_id u)) ;;
         if AuthService.isSome e
         then pure (AuthService.failed "Error al actualizar perfil")
         else
           updatedProfile <~
             lift (AuthService.getUserProfile (browser supabase) (user_id u)) ;;
           match updatedProfile with
           | None =>
               pure (AuthService.failed "Error al obtener perfil actualizado")
           | Some p =>
               pure (AuthService.mkUserResult
                       (Some (AuthService.toAuthUser u p)) None)
           end
     end)
    (pure (AuthService.failed "Error interno del servidor")).

(** [isAuthenticated()] *)
Definition isAuthenticated (supabase : AuthService.BrowserClient) : M bool :=
  try_catch
    (user <- AuthService.getCurrentUser supabase ;;
     ret (AuthService.isSome user))
    (ret false).

Definition result {A} (m : T A) : Result A := snd m.
Definition issued {A} (m : T A) : list AccountCall := fst m.

End Account.

(** ** AuthProvider, continued *)

Module AuthProviderMore.
Import AuthProvider.

(** The continuation shared by [resetPassword] and [updatePassword]. *)
Definition errorAction_settle (r : Result (option JS.Message))
  (st : AuthState) : AuthState :=
  let st' :=
    match r with
    | Ok authError =>
        if JS.truthyMessage authError then setError authError st else st
    | Throw => setError (Some (JS.Text "Error interno del servidor")) st
    end in
  setLoading false st'.

Definition resetPassword (supabase : Account.AccountClient) (origin : string)
  (email : string) (st : AuthState) : AuthState :=
  errorAction_settle (Account.result (Account.resetPassword supabase origin email))
    (action_begin st).

Definition updatePassword (supabase : Account.AccountClient)
  (data : PasswordUpdateData) (st : AuthState) : AuthState :=
  errorAction_settle (Account.result (Account.updatePassword supabase data))
    (action_begin st).

Definition updateProfile (supabase : Account.AccountClient)
  (profile : ProfilePatch) (st : AuthState) : AuthState :=
  userAction_settle (Account.result (Account.updateProfile supabase profile))
    (action_begin st).

End AuthProviderMore.

(** ** The pages that call the provider *)

(** What submitting a form leaves behind: the validation errors shown,
    the provider's state, the requests sent and the [router.push]. *)
Record Submission : Type := mkSubmission {
  validationErrors : list (string * string);
  auth : AuthProvider.AuthState;
  requests : list Call;
  pushed : option string
}.

Module LoginPage.

Record FormData : Type := mkFormData { email : string; password : string }.

(** [searchParams.get(name)]: the value of the first entry so named. *)
Fixpoint searchParams_get (name : string) (ps : list (string * string))
  : option string :=
  match ps with
  | [] => None
  | (n, v) :: ps' => if n =? name then Some v else searchParams_get name ps'
  end.

(** [searchParams.get('redirectTo') || '/dashboard'] *)
Definition redirectTo (searchParams : list (string * string)) : string :=
  match searchParams_get "redirectTo" searchParams with
  | Some v => if JS.truthy (Some v) then v else "/dashboard"
  | None => "/dashboard"
  end.

(** The [errors] object of [validateForm], as its entries in the order
    they are assigned. *)
Definition validateForm (formData : FormData) : list (string * string) :=
  ((if email formData =? ""
    then [("email", "El email es requerido")]
    else if negb (Utils.isValidEmail (email formData))
    then [("email", "El email no es válido")]
    else [])
   ++
   (if password formData =? ""
    then [("password", "La contraseña es requerida")]
    else if (String.length (password formData) <? 6)%nat
    then [("password", "La contraseña debe tener al menos 6 caracteres")]
    else []))%list.

(** [Object.keys(errors).length === 0] *)
Definition isValid (errors : list (string * string)) : bool :=
  (length errors =? 0)%nat.

Definition handleSubmit (supabase : AuthService.BrowserClient)
  (searchParams : list (string * string)) (formData : FormData)
  (st : AuthProvider.AuthState) : Submission :=
  let errors := validateForm formData in
  if negb (isValid errors)
  then mkSubmission errors st [] None
  else
    let credentials :=
      mkLoginCredentials (email formData) (password formData) in
    mkSubmission errors
      (AuthProvider.login supabase credentials st)
      (calls (AuthService.login supabase credentials))
      (Some (redirectTo searchParams)).

End LoginPage.

Module RegisterPage.

Record FormData : Type := mkFormData {
  email : string;
  password : string;
  confirmPassword : string;
  full_name : string;
  role : string;
  clinic_id : string
}.

(** The form as first rendered. *)
Definition initialForm : FormData :=
  mkFormData "" "" "" "" "receptionist" "".

Definition validateForm (formData : FormData) : list (string * string) :=
  ((if email formData =? ""
    then [("email", "El email es requerido")]
    else if negb (Utils.isValidEmail (email formData))
    then [("email", "El email no es válido")]
    else [])
   ++
   (if password formData =? ""
    then [("password", "La contraseña es requerida")]
    else if negb (Utils.isValidPassword (password formData))
    then [("password", "La contraseña debe tener al menos 8 caracteres, una mayúscula, una minúscula y un número")]
    else [])
   ++
   (if confirmPassword formData =? ""
    then [("confirmPassword", "Confirma tu contraseña")]
    else if negb (password formData =? confirmPassword formData)
    then [("confirmPassword", "Las contraseñas no coinciden")]
    else [])
   ++
   (if full_name formData =? ""
    then [("full_name", "El nombre completo es requerido")]
    else if (String.length (JS.trim (full_name formData)) <? 2)%nat
    then [("full_name", "El nombre debe tener al menos 2 caracteres")]
    else [])
   ++
   (if clinic_id formData =? ""
    then [("clinic_id", "El ID de clínica es requerido")]
    else []))%list.

Definition isValid (errors : list (string * string)) : bool :=
  (length errors =? 0)%nat.

Definition toRegisterData (formData : FormData) : RegisterData :=
  mkRegisterData (email formData) (password formData) (full_name formData)
    (role formData) (clinic_id formData).

Definition handleSubmit (supabase : AuthService.BrowserClient)
  (formData : FormData) (st : AuthProvider.AuthState) : Submission :=
  let errors := validateForm formData in
  if negb (isValid errors)
  then mkSubmission errors st [] None
  else
    mkSubmission errors
      (AuthProvider.register supabase (toRegisterData formData) st)
      (calls (AuthService.register supabase (toRegisterData formData)))
      (Some "/dashboard").

End RegisterPage.

(** ** Vocabulary of the further statements *)

Module Shapes.
Import RegexSem.

(** A non-empty run of code units that are neither white space nor [@]. *)
Definition part (x : string) : Prop :=
  x <> "" /\ allChars Utils.notSpaceAt x = true.

(** At least eight code units, all of the password class, with a lower-case
    letter, an upper-case letter and a digit among them. *)
Definition strongPassword (s : string) : bool :=
  (8 <=? String.length s)%nat
  && allChars Utils.passwordChar s
  && someChar Regex.lower s
  && someChar Regex.upper s
  && someChar Regex.digit s.

Definition isAngle (c : ascii) : bool := Ascii.eqb c "<" || Ascii.eqb c ">".

(** The input checks [AuthService.register] makes before it contacts the
    identity provider. *)
Definition passesRegisterChecks (data : RegisterData) : bool :=
  Utils.isValidEmail (register_email data)
  && Utils.isValidPassword (register_password data)
  && negb ((register_full_name data =? "")
           || (String.length (JS.trim (register_full_name data)) <? 2)%nat)
  && negb (register_clinic_id data =? "").


(** The profile query answers with the row [p] and no error. *)
Definition profileFound (supabase : AuthService.BrowserClient)
  (userId : string) (p : UserProfile) : Prop :=
  exists q, AuthService.profiles_select_single supabase userId = Ok q
            /\ error q = None /\ data q = Some p.

End Shapes.

(** * Properties *)

(** ** Prefixes and the route tables *)

Section Prefixes.

Lemma prefix_split (p s : string) :
  String.prefix p s = true -> exists rest, s = p ++ rest.
Proof.
  revert s; induction p as [|c p IH]; intros s H.
  - exists s; reflexivity.
  - destruct s as [|d s]; [discriminate|].
    simpl in H. destruct (ascii_dec c d) as [->|]; [|discriminate].
    destruct (IH s H) as [rest ->]. exists rest; reflexivity.
Qed.

Lemma prefix_append (p rest : string) : String.prefix p (p ++ rest) = true.
Proof.
  induction p as [|c p IH]; simpl.
  - destruct rest; reflexivity.
  - destruct (ascii_dec c c); [exact IH|congruence].
Qed.

Lemma matches_split (routes : list string) (p : string) :
  Middleware.matches routes p = true ->
  exists route rest, In route routes /\ p = route ++ rest.
Proof.
  unfold Middleware.matches, JS.some, JS.startsWith.
  intros H. apply existsb_exists in H. destruct H as [route [Hin Hp]].
  destruct (prefix_split _ _ Hp) as [rest ->]. eauto.
Qed.

End Prefixes.

(** A path under one of the listed prefixes: split it and decide the goal
    by evaluation on the known prefix. *)
Ltac by_prefix H :=
  let route := fresh "route" in
  let rest := fresh "rest" in
  let Hin := fresh "Hin" in
  destruct (matches_split _ _ H) as [route [rest [Hin ->]]];
  simpl in Hin;
  repeat (destruct Hin as [<-|Hin]; [vm_compute; reflexivity|]);
  contradiction.

Section RouteClasses.
Import Middleware.

Lemma auth_is_public p : isAuthRoute p = true -> isPublicRoute p = true.
Proof.
  intros H. destruct (matches_split _ _ H) as [route [rest [Hin ->]]].
  unfold isPublicRoute, matches, JS.some, JS.startsWith.
  apply existsb_exists. exists route. split.
  - simpl in Hin |- *. tauto.
  - apply prefix_append.
Qed.

Lemma private_not_auth p : isPublicRoute p = false -> isAuthRoute p = false.
Proof.
  intros H. destruct (isAuthRoute p) eqn:E; [|reflexivity].
  apply auth_is_public in E. congruence.
Qed.

Lemma auth_not_root p : isAuthRoute p = true -> (p =? "/") = false.
Proof. intros H. by_prefix H. Qed.

Lemma admin_not_public p : isAdminRoute p = true -> isPublicRoute p = false.
Proof. intros H. by_prefix H. Qed.

Lemma admin_not_root p : isAdminRoute p = true -> (p =? "/") = false.
Proof. intros H. by_prefix H. Qed.

Lemma admin_not_dentist p : isAdminRoute p = true -> isDentistRoute p = false.
Proof. intros H. by_prefix H. Qed.

Lemma dentist_not_public p : isDentistRoute p = true -> isPublicRoute p = false.
Proof. intros H. by_prefix H. Qed.

Lemma dentist_not_root p : isDentistRoute p = true -> (p =? "/") = false.
Proof. intros H. by_prefix H. Qed.

Lemma dentist_not_admin p : isDentistRoute p = true -> isAdminRoute p = false.
Proof. intros H. by_prefix H. Qed.

End RouteClasses.

(** ** The middleware, branch by branch *)

Section MiddlewareBranches.
Import Middleware.

Variable block : ServerClient -> NextRequest -> Session -> M (option Response).
Variable supabase : ServerClient.
Variable req : NextRequest.

Let p := nextUrl_pathname req.

Lemma mw_auth_route_session s :
  auth_getSession supabase = Ok (Some s) ->
  isAuthRoute p = true ->
  middlewareWith block supabase req
  = ([CallGetSession], Ok (Redirect (dashboard req))).
Proof.
  intros Hs Ha. unfold middlewareWith, await, bind. rewrite Hs.
  fold p. rewrite Ha. reflexivity.
Qed.

Lemma mw_no_session_private :
  auth_getSession supabase = Ok None ->
  isPublicRoute p = false ->
  middlewareWith block supabase req
  = ([CallGetSession], Ok (Redirect (loginWithReturn req))).
Proof.
  intros Hs Hp. unfold middlewareWith, await, bind. rewrite Hs.
  fold p. rewrite Hp. cbn [isSome]. rewrite !andb_false_r. reflexivity.
Qed.

Lemma mw_no_session_public :
  auth_getSession supabase = Ok None ->
  isPublicRoute p = true ->
  middlewareWith block supabase req = ([CallGetSession], Ok Next).
Proof.
  intros Hs Hp. unfold middlewareWith, await, bind. rewrite Hs.
  fold p. rewrite Hp. cbn [isSome]. rewrite !andb_false_r. reflexivity.
Qed.

Lemma mw_session_private s :
  auth_getSession supabase = Ok (Some s) ->
  isPublicRoute p = false ->
  (p =? "/") = false ->
  middlewareWith block supabase req
  = (CallGetSession :: calls (block supabase req s),
     match outcome (block supabase req s) with
     | Ok (Some response) => Ok response
     | Ok None => Ok Next
     | Throw => Throw
     end).
Proof.
  intros Hs Hp Hr. unfold middlewareWith, await, bind. rewrite Hs.
  fold p. rewrite (private_not_auth _ Hp), Hp, Hr. cbn [isSome andb negb].
  unfold calls, outcome, ret.
  destruct (block supabase req s) as [t [[response|]|]]; cbn;
    rewrite ?app_nil_r; reflexivity.
Qed.

Lemma mw_session_private_outcome s :
  auth_getSession supabase = Ok (Some s) ->
  isPublicRoute p = false ->
  (p =? "/") = false ->
  outcome (middlewareWith block supabase req)
  = match outcome (block supabase req s) with
    | Ok (Some response) => Ok response
    | Ok None => Ok Next
    | Throw => Throw
    end.
Proof.
  intros Hs Hp Hr. rewrite (mw_session_private s Hs Hp Hr). reflexivity.
Qed.

End MiddlewareBranches.

Section ProfileBlock.
Import Middleware.

Variable supabase : ServerClient.
Variable req : NextRequest.
Variable s : Session.

Let id := user_id (session_user s).

Lemma block_resolved q profile :
  profiles_role_single supabase id = Ok q ->
  data q = Some profile ->
  outcome (profileBlock supabase req s) = Ok (roleChecks req profile)
  /\ outcome (try_catch (profileBlock supabase req s) (ret None))
     = Ok (roleChecks req profile).
Proof.
  intros Hq Hd. unfold profileBlock, await, bind, try_catch, outcome.
  fold id. rewrite Hq, Hd. split; reflexivity.
Qed.

Lemma block_nothing q :
  profiles_role_single supabase id = Ok q ->
  data q = None ->
  outcome (profileBlock supabase req s) = Ok None
  /\ outcome (try_catch (profileBlock supabase req s) (ret None)) = Ok None.
Proof.
  intros Hq Hd. unfold profileBlock, await, bind, try_catch, outcome.
  fold id. rewrite Hq, Hd. split; reflexivity.
Qed.

Lemma block_thrown :
  profiles_role_single supabase id = Throw ->
  outcome (profileBlock supabase req s) = Throw
  /\ outcome (try_catch (profileBlock supabase req s) (ret None)) = Ok None.
Proof.
  intros Hq. unfold profileBlock, await, bind, try_catch, outcome.
  fold id. rewrite Hq. split; reflexivity.
Qed.

End ProfileBlock.

Section SignedInPrivate.
Import Middleware Terms.

Variable supabase : ServerClient.
Variable req : NextRequest.
Variable s : Session.

Hypothesis Hsession : auth_getSession supabase = Ok (Some s).
Hypothesis Hprivate : isPublicRoute (nextUrl_pathname req) = false.
Hypothesis Hroot : (nextUrl_pathname req =? "/") = false.

(** With a session, on a private path other than the root, the response
    is decided by the resolved role alone. *)
Lemma ssr_by_role :
  outcome (Ssr.middleware supabase req)
  = match resolvedRole supabase s with
    | Some r =>
        match roleChecks req (mkRoleRow r) with
        | Some response => Ok response
        | None => Ok Next
        end
    | None => Ok Next
    end.
Proof.
  unfold Ssr.middleware.
  rewrite (mw_session_private_outcome _ _ _ s Hsession Hprivate Hroot).
  cbv beta. unfold resolvedRole, profileQuery.
  destruct (profiles_role_single supabase (user_id (session_user s)))
    as [q|] eqn:Hq.
  - destruct (data q) as [row|] eqn:Hd.
    + destruct (block_resolved supabase req s q row Hq Hd) as [_ H1].
      rewrite H1. destruct row as [r]. cbn [option_map role].
      destruct (roleChecks req (mkRoleRow r)); reflexivity.
    + destruct (block_nothing supabase req s q Hq Hd) as [_ H1].
      rewrite H1. reflexivity.
  - destruct (block_thrown supabase req s Hq) as [_ H1].
    rewrite H1. reflexivity.
Qed.

(** The auth-helpers revision answers the same, unless the profile query
    rejects, in which case the middleware rejects too. *)
Lemma auth_helpers_by_role :
  outcome (AuthHelpers.middleware supabase req)
  = match profileQuery supabase s with
    | Ok _ => outcome (Ssr.middleware supabase req)
    | Throw => Throw
    end.
Proof.
  rewrite ssr_by_role. unfold AuthHelpers.middleware.
  rewrite (mw_session_private_outcome _ _ _ s Hsession Hprivate Hroot).
  unfold resolvedRole, profileQuery.
  destruct (profiles_role_single supabase (user_id (session_user s)))
    as [q|] eqn:Hq.
  - destruct (data q) as [row|] eqn:Hd.
    + destruct (block_resolved supabase req s q row Hq Hd) as [H0 _].
      rewrite H0. destruct row as [r]. cbn [option_map role].
      destruct (roleChecks req (mkRoleRow r)); reflexivity.
    + destruct (block_nothing supabase req s q Hq Hd) as [H0 _].
      rewrite H0. reflexivity.
  - destruct (block_thrown supabase req s Hq) as [H0 _].
    rewrite H0. reflexivity.
Qed.

End SignedInPrivate.

(** ** Claims about the middleware *)

Section MiddlewareClaims.
Import Middleware Terms.

(** C1, as stated, fails: on the admin-restricted path [/admin], a
    request with a valid session whose profile query returns nothing is
    let through ([NextResponse.next()]), it is not redirected. *)
Lemma C1_admin_without_profile_passes :
  isAdminRoute "/admin" = true
  /\ resolvedRole (Samples.signedIn Samples.nothing) Samples.session = None
  /\ outcome (Ssr.middleware (Samples.signedIn Samples.nothing)
                (Samples.request "/admin")) = Ok Next
  /\ outcome (AuthHelpers.middleware (Samples.signedIn Samples.nothing)
                (Samples.request "/admin")) = Ok Next
  /\ ~ (exists u,
          outcome (Ssr.middleware (Samples.signedIn Samples.nothing)
                     (Samples.request "/admin")) = Ok (Redirect u)).
Proof.
  repeat split; try reflexivity.
  intros [u Hu]. vm_compute in Hu. discriminate.
Qed.

(** C1 (amended): with a valid session whose profile query rejects or
    carries no row, the middleware lets the request through on
    admin-restricted and role-restricted paths just as on the other
    protected paths: without a profile no role check is made.  (In the
    auth-helpers revision this holds when the query does not reject.) *)
Theorem C1_missing_profile_is_let_through supabase req s :
  auth_getSession supabase = Ok (Some s) ->
  resolvedRole supabase s = None ->
  isAdminRoute (nextUrl_pathname req) = true
  \/ isDentistRoute (nextUrl_pathname req) = true
  \/ plainProtected (nextUrl_pathname req) = true ->
  outcome (Ssr.middleware supabase req) = Ok Next
  /\ (profileQuery supabase s <> Throw ->
      outcome (AuthHelpers.middleware supabase req) = Ok Next).
Proof.
  intros Hs Hr Hclass.
  assert (Hp : isPublicRoute (nextUrl_pathname req) = false
               /\ (nextUrl_pathname req =? "/") = false).
  { destruct Hclass as [H|[H|H]].
    - split; [apply admin_not_public | apply admin_not_root]; exact H.
    - split; [apply dentist_not_public | apply dentist_not_root]; exact H.
    - unfold plainProtected in H.
      destruct (isPublicRoute (nextUrl_pathname req));
        destruct (nextUrl_pathname req =? "/"); try discriminate; auto. }
  destruct Hp as [Hpub Hroot].
  rewrite (auth_helpers_by_role supabase req s Hs Hpub Hroot).
  rewrite (ssr_by_role supabase req s Hs Hpub Hroot), Hr.
  split; [reflexivity|].
  destruct (profileQuery supabase s); [reflexivity|congruence].
Qed.

Lemma C1_missing_profile_is_let_through_witness :
  outcome (Ssr.middleware (Samples.signedIn Samples.nothing)
             (Samples.request "/reports/monthly")) = Ok Next
  /\ (profileQuery (Samples.signedIn Samples.nothing) Samples.session <> Throw ->
      outcome (AuthHelpers.middleware (Samples.signedIn Samples.nothing)
                 (Samples.request "/reports/monthly")) = Ok Next).
Proof.
  apply (C1_missing_profile_is_let_through
           (Samples.signedIn Samples.nothing)
           (Samples.request "/reports/monthly") Samples.session).
  - reflexivity.
  - reflexivity.
  - right; left; reflexivity.
Defined.




(** C3: on a path that is not public, a request without a session is
    redirected to [/login] with the query parameter [redirectTo] set to
    the path requested; in both revisions, and with no profile query
    issued. *)
Theorem C3_unauthenticated_goes_to_login mw supabase req :
  In mw revisions ->
  auth_getSession supabase = Ok None ->
  isPublicRoute (nextUrl_pathname req) = false ->
  mw supabase req
  = ([CallGetSession],
     Ok (Redirect (mkURL (url req) "/login"
                     [("redirectTo", nextUrl_pathname req)]))).
Proof.
  intros Hmw Hs Hp.
  destruct Hmw as [<-|[<-|[]]];
    [unfold AuthHelpers.middleware | unfold Ssr.middleware];
    rewrite (mw_no_session_private _ _ _ Hs Hp); reflexivity.
Qed.

Lemma C3_unauthenticated_goes_to_login_witness :
  Ssr.middleware Samples.anonymous (Samples.request "/admin")
  = ([CallGetSession],
     Ok (Redirect (mkURL "https://clinic.test" "/login"
                     [("redirectTo", "/admin")]))).
Proof.
  apply (C3_unauthenticated_goes_to_login Ssr.middleware Samples.anonymous
           (Samples.request "/admin")).
  - right; left; reflexivity.
  - reflexivity.
  - reflexivity.
Defined.

(** C4: on a role-restricted path ([/reports], [/analytics]), with a
    session and a resolved profile, role [receptionist] is redirected to
    the dashboard and role [dentist] is let through; in both revisions. *)
Theorem C4_role_restricted_routes mw supabase req s :
  In mw revisions ->
  auth_getSession supabase = Ok (Some s) ->
  isDentistRoute (nextUrl_pathname req) = true ->
  (resolvedRole supabase s = Some "receptionist" ->
   outcome (mw supabase req) = Ok (Redirect (dashboard req))
   /\ decided (mw supabase req) = Some ToDashboard)
  /\ (resolvedRole supabase s = Some "dentist" ->
      outcome (mw supabase req) = Ok Next).
Proof.
  intros Hmw Hs Hd.
  pose proof (dentist_not_public _ Hd) as Hpub.
  pose proof (dentist_not_root _ Hd) as Hroot.
  pose proof (dentist_not_admin _ Hd) as Hadm.
  assert (Hssr : forall r,
            resolvedRole supabase s = Some r ->
            outcome (Ssr.middleware supabase req)
            = if JS.includes ["admin"; "dentist"] r
              then Ok Next else Ok (Redirect (dashboard req))).
  { intros r Hr. rewrite (ssr_by_role supabase req s Hs Hpub Hroot), Hr.
    unfold roleChecks. cbn [role]. rewrite Hadm, Hd. cbn [andb].
    destruct (JS.includes ["admin"; "dentist"] r); reflexivity. }
  assert (Hall : forall r,
            resolvedRole supabase s = Some r ->
            outcome (mw supabase req)
            = if JS.includes ["admin"; "dentist"] r
              then Ok Next else Ok (Redirect (dashboard req))).
  { intros r Hr. destruct Hmw as [<-|[<-|[]]].
    - rewrite (auth_helpers_by_role supabase req s Hs Hpub Hroot).
      pose proof Hr as Hq. unfold resolvedRole in Hq.
      destruct (profileQuery supabase s); [auto|discriminate].
    - auto. }
  split; intros Hr.
  - unfold decided. rewrite (Hall _ Hr). split; reflexivity.
  - rewrite (Hall _ Hr). reflexivity.
Qed.

Lemma C4_role_restricted_routes_witness :
  outcome (AuthHelpers.middleware
             (Samples.signedIn (Samples.found "receptionist"))
             (Samples.request "/reports"))
  = Ok (Redirect (dashboard (Samples.request "/reports")))
  /\ outcome (Ssr.middleware (Samples.signedIn (Samples.found "dentist"))
                (Samples.request "/analytics/2024")) = Ok Next.
Proof.
  split.
  - refine (proj1 (proj1 (C4_role_restricted_routes AuthHelpers.middleware
              (Samples.signedIn (Samples.found "receptionist"))
              (Samples.request "/reports") Samples.session _ _ _) _)).
    + left; reflexivity.
    + reflexivity.
    + reflexivity.
    + reflexivity.
  - refine (proj2 (C4_role_restricted_routes Ssr.middleware
              (Samples.signedIn (Samples.found "dentist"))
              (Samples.request "/analytics/2024") Samples.session _ _ _) _).
    + right; left; reflexivity.
    + reflexivity.
    + reflexivity.
    + reflexivity.
Defined.

(** C5: on an auth-only path ([/login], [/register]) the middleware lets
    a request without a session through and redirects one with a session
    to [/dashboard] on the request's own origin, whatever the profile
    table would answer: the profile query is never issued.  In both
    revisions. *)
Theorem C5_auth_only_routes mw getSession profiles req :
  In mw revisions ->
  isAuthRoute (nextUrl_pathname req) = true ->
  (getSession = Ok None ->
   mw (mkServerClient getSession profiles) req = ([CallGetSession], Ok Next))
  /\ (forall s, getSession = Ok (Some s) ->
      mw (mkServerClient getSession profiles) req
      = ([CallGetSession], Ok (Redirect (mkURL (url req) "/dashboard" [])))
      /\ decided (mw (mkServerClient getSession profiles) req)
         = Some ToDashboard).
Proof.
  intros Hmw Ha. pose proof (auth_is_public _ Ha) as Hpub.
  split; [intros Hs | intros s Hs];
    destruct Hmw as [<-|[<-|[]]];
    unfold AuthHelpers.middleware, Ssr.middleware.
  - apply mw_no_session_public; assumption.
  - apply mw_no_session_public; assumption.
  - unfold decided.
    rewrite (mw_auth_route_session _ _ _ s) by assumption.
    split; reflexivity.
  - unfold decided.
    rewrite (mw_auth_route_session _ _ _ s) by assumption.
    split; reflexivity.
Qed.

Lemma C5_auth_only_routes_witness :
  (Ssr.middleware (Samples.signedIn Throw) (Samples.request "/login")
   = ([CallGetSession],
      Ok (Redirect (mkURL "https://clinic.test" "/dashboard" [])))
   /\ decided (Ssr.middleware (Samples.signedIn Throw)
                 (Samples.request "/login"))
      = Some ToDashboard)
  /\ AuthHelpers.middleware Samples.anonymous (Samples.request "/register")
     = ([CallGetSession], Ok Next).
Proof.
  split.
  - refine (proj2 (C5_auth_only_routes Ssr.middleware
              (Ok (Some Samples.session)) (fun _ => Throw)
              (Samples.request "/login") _ _) Samples.session _).
    + right; left; reflexivity.
    + reflexivity.
    + reflexivity.
  - refine (proj1 (C5_auth_only_routes AuthHelpers.middleware
              (Ok None) (fun _ => Samples.nothing)
              (Samples.request "/register") _ _) _).
    + left; reflexivity.
    + reflexivity.
    + reflexivity.
Defined.

End MiddlewareClaims.

(** ** AuthService: what its calls return *)

Section ServiceFacts.
Import AuthService.

Lemma truthy_text s : JS.truthyMessage (Some (JS.Text s)) = JS.truthy (Some s).
Proof. reflexivity. Qed.

(** What [formatAuthError] answers is truthy: a non-empty message, or an
    inherited member. *)
Lemma formatAuthError_truthy message :
  JS.truthyMessage (Some (Utils.formatAuthError message)) = true.
Proof.
  unfold Utils.formatAuthError, Utils.errorMessages, Utils.lookup.
  repeat (destruct (message =? _); [vm_compute; reflexivity|]).
  destruct (JS.includes JS.objectPrototypeKeys message); reflexivity.
Qed.

(** It answers a non-empty message for every key that is not inherited,
    and the inherited member otherwise: no key of the table is one of
    [Object.prototype]. *)
Lemma formatAuthError_cases message :
  (JS.includes JS.objectPrototypeKeys message = false
   /\ exists s, Utils.formatAuthError message = JS.Text s
                /\ JS.truthy (Some s) = true)
  \/ (JS.includes JS.objectPrototypeKeys message = true
      /\ In message JS.objectPrototypeKeys
      /\ Utils.formatAuthError message = JS.Inherited message).
Proof.
  destruct (JS.includes JS.objectPrototypeKeys message) eqn:Hin.
  - right. split; [reflexivity|].
    assert (Hmem : In message JS.objectPrototypeKeys).
    { unfold JS.includes in Hin. apply existsb_exists in Hin.
      destruct Hin as [k [Hk E]]. apply String.eqb_eq in E. subst k.
      exact Hk. }
    split; [exact Hmem|].
    unfold Utils.formatAuthError. simpl in Hmem.
    repeat (destruct Hmem as [<-|Hmem]; [reflexivity|]). contradiction.
  - left. split; [reflexivity|].
    unfold Utils.formatAuthError, Utils.errorMessages, Utils.lookup.
    repeat (destruct (message =? _);
            [eexists; split; vm_compute; reflexivity|]).
    rewrite Hin. eexists; split; reflexivity.
Qed.

Variable supabase : BrowserClient.

Lemma getUserProfile_runs userId :
  getUserProfile supabase userId
  = ([CallSelectProfile userId],
     Ok match profiles_select_single supabase userId with
        | Ok q => if isSome (error q) || negb (isSome (data q))
                  then None else data q
        | Throw => None
        end).
Proof.
  unfold getUserProfile, await, bind, try_catch, ret.
  destruct (profiles_select_single supabase userId) as [q|]; [|reflexivity].
  destruct (isSome (error q) || negb (isSome (data q))); reflexivity.
Qed.

Lemma getUserProfile_missing userId :
  Terms.profileMissing supabase userId ->
  outcome (getUserProfile supabase userId) = Ok None.
Proof.
  unfold Terms.profileMissing. rewrite getUserProfile_runs. cbn [outcome snd].
  destruct (profiles_select_single supabase userId) as [q|]; [|reflexivity].
  destruct (error q) as [e|]; [reflexivity|].
  destruct (data q) as [row|]; [|reflexivity].
  intros [H|H]; congruence.
Qed.

(** [logout] never rejects; it answers [null] exactly when sign-out
    answered without an error. *)
Lemma logout_runs :
  logout supabase
  = ([CallSignOut],
     Ok match auth_signOut supabase with
        | Ok (Some message) => Some (Utils.formatAuthError message)
        | Ok None => None
        | Throw => Some (JS.Text "Error interno del servidor")
        end).
Proof.
  unfold logout, await, bind, try_catch, ret.
  destruct (auth_signOut supabase) as [[message|]|]; reflexivity.
Qed.

Lemma login_exchanges credentials :
  length (filter AuthProvider.isExchange (calls (login supabase credentials)))
  = if Terms.passesLoginChecks credentials then 1 else 0.
Proof.
  unfold Terms.passesLoginChecks, login.
  destruct (Utils.isValidEmail (login_email credentials)); [|reflexivity].
  cbn [negb andb].
  destruct ((login_password credentials =? "")
            || (String.length (login_password credentials) <? 6)%nat);
    [reflexivity|].
  cbn [negb]. unfold await, bind, try_catch.
  destruct (auth_signInWithPassword supabase
              (login_email credentials) (login_password credentials))
    as [[[u|] [message|]]|]; try reflexivity.
  cbn [auth_error auth_user].
  rewrite getUserProfile_runs.
  destruct (profiles_select_single supabase (user_id u)) as [q|];
    [|reflexivity].
  destruct (isSome (error q) || negb (isSome (data q)));
    [reflexivity|].
  destruct (data q); reflexivity.
Qed.

End ServiceFacts.

(** ** Claims about the client auth state *)

Section LogoutClaims.
Import AuthProvider.

(** C6, as stated, fails: when sign-out answers with an error, [logout]
    leaves a signed-in user in place. *)
Lemma C6_failed_sign_out_keeps_user :
  AuthService.auth_signOut Samples.signOutFails = Ok (Some "Too many requests")
  /\ user Samples.signedInState = Some (Samples.anaUser "dentist")
  /\ user (logout Samples.signOutFails Samples.signedInState)
     = Some (Samples.anaUser "dentist")
  /\ user (logout Samples.signOutFails Samples.signedInState) <> None.
Proof. repeat split; try reflexivity. discriminate. Qed.

(** C6 (amended): from every starting state [logout] ends with
    [loading = false]; it ends with the user cleared when the remote
    sign-out answers without an error; when the remote call answers with
    an error or rejects, the user is left as it was.  The error is then
    set: to the formatted message, a non-empty string, when the provider's
    message is not the name of a member of [Object.prototype], and to
    "Error interno del servidor" when the call rejects. *)
Theorem C6_logout_clears_on_success supabase st :
  loading (logout supabase st) = false
  /\ (AuthService.auth_signOut supabase = Ok None ->
      user (logout supabase st) = None /\ error (logout supabase st) = None)
  /\ (AuthService.auth_signOut supabase <> Ok None ->
      user (logout supabase st) = user st)
  /\ (forall message,
        AuthService.auth_signOut supabase = Ok (Some message) ->
        JS.includes JS.objectPrototypeKeys message = false ->
        exists text,
          Utils.formatAuthError message = JS.Text text
          /\ JS.truthy (Some text) = true
          /\ error (logout supabase st) = Some (JS.Text text))
  /\ (AuthService.auth_signOut supabase = Throw ->
      error (logout supabase st)
      = Some (JS.Text "Error interno del servidor")).
Proof.
  unfold logout. rewrite logout_runs. cbn [outcome snd].
  destruct (AuthService.auth_signOut supabase) as [[message|]|].
  - unfold logout_settle. rewrite formatAuthError_truthy.
    split; [reflexivity|]. split; [discriminate|].
    split; [reflexivity|]. split; [|discriminate].
    intros message' E Hkey. injection E as <-.
    destruct (formatAuthError_cases message)
      as [[_ [text [Ht Htruthy]]]|[Hin _]]; [|congruence].
    exists text. rewrite Ht. repeat split; auto.
  - split; [reflexivity|]. split; [intros _; split; reflexivity|].
    split; [congruence|]. split; [discriminate|discriminate].
  - split; [reflexivity|]. split; [discriminate|].
    split; [reflexivity|]. split; [discriminate|reflexivity].
Qed.

Lemma C6_logout_clears_on_success_witness :
  user (logout Samples.healthy Samples.signedInState) = None
  /\ error (logout Samples.healthy Samples.signedInState) = None.
Proof.
  apply (proj1 (proj2 (C6_logout_clears_on_success Samples.healthy
                         Samples.signedInState))).
  reflexivity.
Defined.

End LogoutClaims.

Section LoginClaims.
Import AuthProvider.

(** C7, as stated, fails: a second [login] called while the first is
    still in flight ([loading = true]) issues a second credential
    exchange. *)
Lemma C7_second_login_issues_second_exchange :
  let c0 := mkClient Samples.anonymousState [] in
  let c1 := call_login Samples.healthy Samples.credentials c0 in
  let c2 := call_login Samples.healthy Samples.credentials c1 in
  loading (state c1) = true
  /\ exchangesInFlight c1 = 1
  /\ loading (state c2) = true
  /\ exchangesInFlight c2 = 2.
Proof. repeat split; reflexivity. Qed.

(** Once both answers have arrived the client is signed in and idle. *)
Lemma overlapping_logins_settle :
  let c0 := mkClient Samples.anonymousState [] in
  let c2 := call_login Samples.healthy Samples.credentials
              (call_login Samples.healthy Samples.credentials c0) in
  settle_login (settle_login c2)
  = mkClient (mkAuthState (Some (Samples.anaUser "dentist")) false None true) [].
Proof. reflexivity. Qed.

(** C7 (amended): [login] does not consult the [loading] flag.  Every
    call, whatever the state it is made in, sets [loading] and issues one
    credential exchange exactly when the credentials pass the input
    checks of [AuthService.login]; a call made while an exchange is in
    flight adds a second one. *)
Theorem C7_login_is_not_gated supabase credentials c :
  loading (state (call_login supabase credentials c)) = true
  /\ exchangesInFlight (call_login supabase credentials c)
     = exchangesInFlight c
       + (if Terms.passesLoginChecks credentials then 1 else 0).
Proof.
  split; [reflexivity|].
  unfold call_login. unfold exchangesInFlight. cbn [inflight].
  rewrite map_app, concat_app, filter_app, length_app.
  cbn [map concat]. rewrite app_nil_r, login_exchanges. reflexivity.
Qed.

End LoginClaims.

Section RegisterClaims.
Import AuthProvider.

Lemma register_fails_when_profile_creation_fails supabase form u :
  Terms.credentialsCreated supabase form u ->
  Terms.profileCreationFails supabase form u ->
  exists message,
    outcome (AuthService.register supabase form)
    = Ok (AuthService.failed message)
    /\ JS.truthy (Some message) = true.
Proof.
  unfold Terms.credentialsCreated, Terms.profileCreationFails.
  intros Hup Hins. unfold AuthService.register.
  destruct (Utils.isValidEmail (register_email form));
    [|eexists; split; reflexivity].
  destruct (Utils.isValidPassword (register_password form));
    [|eexists; split; reflexivity].
  destruct ((register_full_name form =? "")
            || (String.length (JS.trim (register_full_name form)) <? 2)%nat);
    [eexists; split; reflexivity|].
  destruct (register_clinic_id form =? "");
    [eexists; split; reflexivity|].
  cbn [negb]. unfold await, bind, try_catch, outcome. rewrite Hup.
  cbn [AuthService.auth_error AuthService.auth_user].
  destruct (AuthService.profiles_insert supabase (user_id u)
              (register_clinic_id form) (register_full_name form)
              (register_role form)) as [[e|]|].
  - cbn [AuthService.isSome].
    destruct (AuthService.auth_admin_deleteUser supabase (user_id u));
      eexists; split; reflexivity.
  - cbn [AuthService.isSome].
    pose proof (getUserProfile_missing supabase (user_id u) Hins) as Hnone.
    rewrite getUserProfile_runs in Hnone |- *. cbn [outcome snd] in Hnone.
    injection Hnone as Hnone. rewrite Hnone.
    eexists; split; reflexivity.
  - eexists; split; reflexivity.
Qed.

(** C8: when sign-up succeeds and the creation of the profile fails (the
    insert is refused or rejects, or the new profile cannot be read back),
    [AuthService.register] answers with no user and an error message, and
    [AuthProvider.register] leaves the user as it was (so a null user
    stays null), publishes that error and ends with [loading = false]. *)
Theorem C8_register_without_profile_fails supabase form u st :
  Terms.credentialsCreated supabase form u ->
  Terms.profileCreationFails supabase form u ->
  exists message,
    outcome (AuthService.register supabase form)
    = Ok (AuthService.mkUserResult None (Some (JS.Text message)))
    /\ JS.truthy (Some message) = true
    /\ user (register supabase form st) = user st
    /\ (user st = None -> user (register supabase form st) = None)
    /\ error (register supabase form st) = Some (JS.Text message)
    /\ loading (register supabase form st) = false.
Proof.
  intros Hup Hins.
  destruct (register_fails_when_profile_creation_fails _ _ _ Hup Hins)
    as [message [Hres Htruthy]].
  exists message. unfold register, register_settle, userAction_settle.
  rewrite Hres. unfold AuthService.failed, AuthService.failedWith.
  cbn [AuthService.result_error]. rewrite truthy_text, Htruthy.
  repeat split; auto.
Qed.

Lemma C8_register_without_profile_fails_witness :
  exists message,
    outcome (AuthService.register Samples.insertFails Samples.registration)
    = Ok (AuthService.mkUserResult None (Some (JS.Text message)))
    /\ JS.truthy (Some message) = true
    /\ user (register Samples.insertFails Samples.registration
               Samples.anonymousState) = user Samples.anonymousState
    /\ (user Samples.anonymousState = None ->
        user (register Samples.insertFails Samples.registration
                Samples.anonymousState) = None)
    /\ error (register Samples.insertFails Samples.registration
                Samples.anonymousState) = Some (JS.Text message)
    /\ loading (register Samples.insertFails Samples.registration
                  Samples.anonymousState) = false.
Proof.
  apply (C8_register_without_profile_fails Samples.insertFails
           Samples.registration Samples.ana Samples.anonymousState).
  - reflexivity.
  - vm_compute. exact I.
Defined.

End RegisterClaims.

(** ** The guard against the middleware *)

Section GuardClaims.
Import Middleware Terms Guard.

Lemma guard_signed_out requireAuth allowedRoles :
  guard requireAuth allowedRoles None
  = Some (if requireAuth then ToLogin else Allow).
Proof.
  unfold guard, AuthGuard, roleRefused. rewrite andb_false_r.
  destruct requireAuth; reflexivity.
Qed.

Lemma guard_signed_in requireAuth allowedRoles u :
  guard requireAuth allowedRoles (Some u)
  = Some (if roleRefused allowedRoles (Some u) then ToDashboard
          else if requireAuth then Allow else ToDashboard).
Proof.
  unfold guard, AuthGuard. cbn [negb orb isSome andb].
  rewrite andb_false_r.
  destruct (roleRefused allowedRoles (Some u)), requireAuth; reflexivity.
Qed.

(** C9, as stated, fails.  The guard never looks at the path.  On the
    public path [/auth/callback] the middleware allows with and without a
    session, while the guard redirects a signed-out visitor to the login
    page when [requireAuth] is set and a signed-in one to the dashboard
    when it is not, whatever [allowedRoles] is; and on [/reports] the
    guard as the pages mount it ([requireAuth] alone) lets a receptionist
    in where the middleware redirects to the dashboard. *)
Lemma C9_guard_and_middleware_differ :
  (decided (Ssr.middleware Samples.anonymous (Samples.request "/auth/callback"))
   = Some Allow
   /\ forall allowedRoles, guard true allowedRoles None = Some ToLogin)
  /\ (decided (Ssr.middleware (Samples.signedIn (Samples.found "admin"))
                 (Samples.request "/auth/callback"))
      = Some Allow
      /\ forall allowedRoles,
           guard false allowedRoles (Some (Samples.anaUser "admin"))
           = Some ToDashboard)
  /\ (decided (Ssr.middleware (Samples.signedIn (Samples.found "receptionist"))
                 (Samples.request "/reports"))
      = Some ToDashboard
      /\ guard true [] (Some (Samples.anaUser "receptionist")) = Some Allow).
Proof.
  split; [|split]; (split; [reflexivity|]).
  - intros allowedRoles. rewrite guard_signed_out. reflexivity.
  - intros allowedRoles. rewrite guard_signed_in.
    destruct (roleRefused allowedRoles (Some (Samples.anaUser "admin")));
      reflexivity.
  - reflexivity.
Qed.

(** C9 (amended): the guard decides from [requireAuth], [allowedRoles]
    and the client's user, not from the path.  Its decision equals the
    middleware's (allow, to login, to dashboard) when the client's user
    mirrors the session and its resolved role and the guard is set up for
    the path's rule: [requireAuth = false] on an auth-only path; and
    [requireAuth = true] with [allowedRoles] the roles the middleware
    admits there, on a protected path other than [/]. *)
Theorem C9_guard_matches_when_configured supabase req user :
  mirrors supabase user ->
  (isAuthRoute (nextUrl_pathname req) = true ->
   forall allowedRoles,
     guard false allowedRoles user = decided (Ssr.middleware supabase req))
  /\ (isPublicRoute (nextUrl_pathname req) = false ->
      (nextUrl_pathname req =? "/") = false ->
      guard true (rolesAdmitted (nextUrl_pathname req)) user
      = decided (Ssr.middleware supabase req)).
Proof.
  intros Hm. split.
  - intros Ha allowedRoles. unfold decided, Ssr.middleware.
    destruct user as [u|]; cbn [mirrors] in Hm.
    + destruct Hm as [s [Hs _]].
      rewrite (mw_auth_route_session _ _ _ s Hs Ha). cbn [outcome snd].
      rewrite guard_signed_in.
      destruct (roleRefused allowedRoles (Some u)); reflexivity.
    + rewrite (mw_no_session_public _ _ _ Hm (auth_is_public _ Ha)).
      rewrite guard_signed_out. reflexivity.
  - intros Hpub Hroot. unfold decided.
    destruct user as [u|]; cbn [mirrors] in Hm.
    + destruct Hm as [s [Hs Hr]].
      rewrite (ssr_by_role supabase req s Hs Hpub Hroot), Hr.
      rewrite guard_signed_in. unfold roleChecks, rolesAdmitted, roleRefused.
      cbn [role].
      destruct (isAdminRoute (nextUrl_pathname req)) eqn:Ha.
      * rewrite (admin_not_dentist _ Ha).
        cbn [andb length Nat.ltb Nat.leb JS.includes existsb].
        rewrite orb_false_r.
        destruct (authuser_role u =? "admin"); reflexivity.
      * destruct (isDentistRoute (nextUrl_pathname req)) eqn:Hd.
        -- cbn [andb length Nat.ltb Nat.leb].
           destruct (JS.includes ["admin"; "dentist"] (authuser_role u));
             reflexivity.
        -- reflexivity.
    + unfold Ssr.middleware.
      rewrite (mw_no_session_private _ _ _ Hm Hpub).
      rewrite guard_signed_out. reflexivity.
Qed.

Lemma C9_guard_matches_when_configured_witness :
  guard true (rolesAdmitted "/reports")
    (Some (Samples.anaUser "receptionist"))
  = decided (Ssr.middleware (Samples.signedIn (Samples.found "receptionist"))
               (Samples.request "/reports")).
Proof.
  refine (proj2 (C9_guard_matches_when_configured
            (Samples.signedIn (Samples.found "receptionist"))
            (Samples.request "/reports")
            (Some (Samples.anaUser "receptionist")) _) _ _).
  - exists Samples.session. split; reflexivity.
  - reflexivity.
  - reflexivity.
Defined.

End GuardClaims.

(** ** The client's view of a session without a profile *)

Section CurrentUserClaims.
Import Terms.

(** C10: [getCurrentUser] answers [null] whenever the profile lookup
    yields nothing, although the identity provider reports a user; the
    provider then initialises with [user = null], which the guard of a
    protected page sends to the login page, whereas the middleware, for a
    session whose profile is missing, lets the request through to every
    private path other than [/]. *)
Theorem C10_no_profile_is_anonymous_on_client supabase u :
  AuthService.auth_getUser supabase = Ok (Some u) ->
  profileMissing supabase (user_id u) ->
  outcome (AuthService.getCurrentUser supabase) = Ok None
  /\ (forall st,
        AuthProvider.user (AuthProvider.initializeAuth supabase st) = None
        /\ AuthProvider.loading (AuthProvider.initializeAuth supabase st)
           = false)
  /\ (forall allowedRoles,
        guard true allowedRoles None = Some Middleware.ToLogin)
  /\ (forall server req s,
        Middleware.auth_getSession server = Ok (Some s) ->
        resolvedRole server s = None ->
        Middleware.isPublicRoute (Middleware.nextUrl_pathname req) = false ->
        (Middleware.nextUrl_pathname req =? "/") = false ->
        decided (Middleware.Ssr.middleware server req)
        = Some Middleware.Allow).
Proof.
  intros Hu Hmissing.
  assert (Hcur : outcome (AuthService.getCurrentUser supabase) = Ok None).
  { unfold AuthService.getCurrentUser, await, bind, try_catch.
    rewrite Hu. rewrite getUserProfile_runs.
    pose proof (getUserProfile_missing supabase (user_id u) Hmissing) as H.
    rewrite getUserProfile_runs in H. cbn [outcome snd] in H.
    injection H as H. rewrite H. reflexivity. }
  split; [exact Hcur|]. split; [|split].
  - intros st. unfold AuthProvider.initializeAuth. rewrite Hcur.
    split; reflexivity.
  - intros allowedRoles. unfold guard, Guard.AuthGuard. reflexivity.
  - intros server req s Hs Hr Hpub Hroot. unfold decided.
    rewrite (ssr_by_role server req s Hs Hpub Hroot), Hr. reflexivity.
Qed.

Lemma C10_no_profile_is_anonymous_on_client_witness :
  outcome (AuthService.getCurrentUser Samples.noProfile) = Ok None
  /\ decided (Middleware.Ssr.middleware (Samples.signedIn Samples.nothing)
                (Samples.request "/dashboard"))
     = Some Middleware.Allow.
Proof.
  destruct (C10_no_profile_is_anonymous_on_client Samples.noProfile
              Samples.ana eq_refl (or_intror eq_refl))
    as [Hcur [_ [_ Hmw]]].
  split; [exact Hcur|].
  apply (Hmw (Samples.signedIn Samples.nothing)
           (Samples.request "/dashboard") Samples.session);
    reflexivity.
Defined.

End CurrentUserClaims.

(** ** The matcher against what patterns denote *)

Section Strings.

Lemma append_empty_r (s : string) : s ++ "" = s.
Proof. induction s as [|c s IH]; simpl; [reflexivity|now rewrite IH]. Qed.

Lemma append_assoc3 (a b c : string) : (a ++ b) ++ c = a ++ (b ++ c).
Proof. induction a as [|x a IH]; simpl; [reflexivity|now rewrite IH]. Qed.

Lemma append_is_empty (x y : string) : x ++ y = "" -> x = "" /\ y = "".
Proof. destruct x; simpl; intros H; [auto|discriminate]. Qed.

Lemma length_append (x y : string) :
  String.length (x ++ y) = String.length x + String.length y.
Proof. induction x as [|c x IH]; simpl; [reflexivity|now rewrite IH]. Qed.

End Strings.

Section Matcher.
Import Regex RegexSem.

Lemma nullable_matches r : nullable r = true <-> matches r "".
Proof.
  split.
  - induction r; simpl; intros H; try discriminate.
    + constructor.
    + apply andb_true_iff in H. destruct H.
      change "" with ("" ++ ""). constructor; auto.
    + apply orb_true_iff in H. destruct H; [apply MAltL|apply MAltR]; auto.
    + apply andb_true_iff in H. destruct H. constructor; auto.
    + constructor.
  - induction r; intros H; inversion H; subst; simpl; auto.
    + match goal with E : _ ++ _ = "" |- _ =>
        apply append_is_empty in E; destruct E; subst end.
      rewrite IHr1, IHr2; auto.
    + rewrite IHr1; auto.
    + rewrite IHr2; auto using orb_true_r.
    + rewrite IHr1, IHr2; auto.
Qed.

Lemma deriv_sound c r : forall s, matches (deriv c r) s -> matches r (String c s).
Proof.
  induction r; simpl; intros w H; try (inversion H; fail).
  - destruct (p c) eqn:E; inversion H; subst. constructor; exact E.
  - destruct (nullable r1) eqn:N.
    + inversion H; subst.
      * match goal with H' : matches (Seq _ _) _ |- _ => inversion H'; subst end.
        change (String c (x ++ y)) with (String c x ++ y). constructor; auto.
      * change (String c w) with ("" ++ String c w).
        constructor; [apply nullable_matches; exact N | auto].
    + inversion H; subst.
      change (String c (x ++ y)) with (String c x ++ y). constructor; auto.
  - inversion H; subst; [apply MAltL|apply MAltR]; auto.
  - inversion H; subst. constructor; auto.
  - inversion H; subst.
    change (String c (x ++ y)) with (String c x ++ y). constructor; auto.
Qed.

Lemma deriv_complete c r w :
  matches r w -> forall s, w = String c s -> matches (deriv c r) s.
Proof.
  induction 1 as [ | p d Hp | r s x y Hx IHx Hy IHy | r s x Hx IHx
                 | r s x Hx IHx | r s x Hr IHr Hs IHs | r
                 | r x y Hx IHx Hy IHy ]; intros w E; simpl.
  - discriminate.
  - injection E as -> <-. rewrite Hp. constructor.
  - destruct x as [|d x]; simpl in E.
    + subst y. assert (N : nullable r = true) by (apply nullable_matches; auto).
      rewrite N. apply MAltR. auto.
    + injection E as -> <-.
      destruct (nullable r); [apply MAltL|]; constructor; auto.
  - apply MAltL; auto.
  - apply MAltR; auto.
  - constructor; auto.
  - discriminate.
  - destruct x as [|d x]; simpl in E.
    + auto.
    + injection E as -> <-. constructor; auto.
Qed.

(** The matcher decides membership in the pattern's language. *)
Lemma test_matches s : forall r, test r s = true <-> matches r s.
Proof.
  induction s as [|c s IH]; intros r; simpl.
  - apply nullable_matches.
  - rewrite IH. split.
    + apply deriv_sound.
    + intros H. apply (deriv_complete c r _ H). reflexivity.
Qed.

Lemma matches_seq r s w :
  matches (Seq r s) w <-> exists x y, w = x ++ y /\ matches r x /\ matches s y.
Proof.
  split.
  - intros H; inversion H; subst; eauto.
  - intros [x [y [-> [Hx Hy]]]]. constructor; auto.
Qed.

Lemma matches_class p w :
  matches (Class p) w <-> exists c, w = String c "" /\ p c = true.
Proof.
  split.
  - intros H; inversion H; subst; eauto.
  - intros [c [-> Hc]]. constructor; auto.
Qed.

Lemma matches_star_class p w :
  matches (Star (Class p)) w <-> allChars p w = true.
Proof.
  split.
  - intros H. remember (Star (Class p)) as r eqn:E.
    induction H; try discriminate.
    + reflexivity.
    + injection E as ->.
      match goal with H' : matches (Class _) _ |- _ => inversion H'; subst end.
      simpl. rewrite IHmatches2 by reflexivity.
      match goal with H' : p _ = true |- _ => rewrite H' end. reflexivity.
  - induction w as [|c w IH]; simpl; intros H.
    + constructor.
    + apply andb_true_iff in H. destruct H as [Hc Hw].
      change (String c w) with (String c "" ++ w).
      constructor; [constructor; exact Hc | auto].
Qed.

Lemma matches_plus_class p w :
  matches (Plus (Class p)) w <-> w <> "" /\ allChars p w = true.
Proof.
  unfold Plus. rewrite matches_seq. split.
  - intros [x [y [-> [Hx Hy]]]]. apply matches_class in Hx.
    destruct Hx as [c [-> Hc]]. apply matches_star_class in Hy.
    simpl. rewrite Hc, Hy. split; [discriminate|reflexivity].
  - intros [Hne Hall]. destruct w as [|c w]; [contradiction|].
    simpl in Hall. apply andb_true_iff in Hall. destruct Hall as [Hc Hw].
    exists (String c ""), w. repeat split.
    + constructor; exact Hc.
    + apply matches_star_class; exact Hw.
Qed.

Lemma matches_at_least_class p n : forall w,
  matches (AtLeast n (Class p)) w
  <-> n <= String.length w /\ allChars p w = true.
Proof.
  induction n as [|n IH]; intros w; simpl.
  - rewrite matches_star_class. split; [intros H; split; [apply Nat.le_0_l|auto] | tauto].
  - rewrite matches_seq. split.
    + intros [x [y [-> [Hx Hy]]]]. apply matches_class in Hx.
      destruct Hx as [c [-> Hc]]. apply IH in Hy. destruct Hy as [Hn Hy].
      simpl. rewrite Hc, Hy. split; [apply le_n_S; exact Hn|reflexivity].
    + intros [Hn Hall]. destruct w as [|c w]; simpl in Hn.
      * inversion Hn.
      * simpl in Hall. apply andb_true_iff in Hall. destruct Hall as [Hc Hw].
        exists (String c ""), w. repeat split.
        -- constructor; exact Hc.
        -- apply IH. split; [apply le_S_n; exact Hn|exact Hw].
Qed.

Lemma allChars_any w : allChars any w = true.
Proof. induction w; simpl; auto. Qed.

Lemma allChars_append p x y :
  allChars p (x ++ y) = allChars p x && allChars p y.
Proof.
  induction x as [|c x IH]; simpl; [reflexivity|].
  rewrite IH, andb_assoc. reflexivity.
Qed.

Lemma someChar_append p x y :
  someChar p (x ++ y) = someChar p x || someChar p y.
Proof.
  induction x as [|c x IH]; simpl; [reflexivity|].
  rewrite IH, orb_assoc. reflexivity.
Qed.

Lemma allChars_weaken (p q : ascii -> bool) w :
  (forall c, p c = true -> q c = true) ->
  allChars p w = true -> allChars q w = true.
Proof.
  intros Hpq. induction w as [|c w IH]; simpl; [auto|].
  intros H. apply andb_true_iff in H. destruct H as [Hc Hw].
  rewrite (Hpq c Hc), (IH Hw). reflexivity.
Qed.

Lemma someChar_split p w :
  someChar p w = true <-> exists x c y, w = x ++ String c y /\ p c = true.
Proof.
  split.
  - induction w as [|c w IH]; simpl; [discriminate|].
    destruct (p c) eqn:Hc.
    + intros _. exists "", c, w. auto.
    + simpl. intros H. destruct (IH H) as [x [d [y [-> Hd]]]].
      exists (String c x), d, y. auto.
  - intros [x [c [y [-> Hc]]]]. rewrite someChar_append. simpl.
    rewrite Hc. rewrite orb_true_r. reflexivity.
Qed.

(** [(?=.*[q])] followed by anything *)
Lemma matches_lookahead q w :
  matches (Seq (Seq (Star (Class dot)) (Class q)) (Star (Class any))) w
  <-> exists x c y, w = x ++ String c y /\ allChars dot x = true /\ q c = true.
Proof.
  rewrite matches_seq. split.
  - intros [xy [z [-> [Hxy _]]]]. apply matches_seq in Hxy.
    destruct Hxy as [x [y [-> [Hx Hy]]]]. apply matches_class in Hy.
    destruct Hy as [c [-> Hc]]. apply matches_star_class in Hx.
    exists x, c, z. rewrite append_assoc3. auto.
  - intros [x [c [y [-> [Hx Hc]]]]].
    exists (x ++ String c ""), y. rewrite append_assoc3. repeat split.
    + apply matches_seq. exists x, (String c ""). repeat split.
      * apply matches_star_class; exact Hx.
      * constructor; exact Hc.
    + apply matches_star_class, allChars_any.
Qed.

End Matcher.

(** ** The validators of lib/utils *)

Section Validators.
Import Regex RegexSem Shapes.

(** X1: [isValidEmail] accepts exactly the strings [a@b.c] in which [a],
    [b] and [c] are non-empty and hold neither white space nor [@]. *)
Theorem isValidEmail_shape s :
  Utils.isValidEmail s = true
  <-> exists a b c, s = a ++ "@" ++ b ++ "." ++ c /\ part a /\ part b /\ part c.
Proof.
  unfold Utils.isValidEmail, Utils.emailRegex, part.
  rewrite test_matches, matches_seq. split.
  - intros [a [r1 [-> [Ha H1]]]]. apply matches_plus_class in Ha.
    apply matches_seq in H1. destruct H1 as [at_ [r2 [-> [Hat H2]]]].
    apply matches_class in Hat. destruct Hat as [d [-> Hd]].
    apply Ascii.eqb_eq in Hd. subst d.
    apply matches_seq in H2. destruct H2 as [b [r3 [-> [Hb H3]]]].
    apply matches_plus_class in Hb.
    apply matches_seq in H3. destruct H3 as [dot_ [c [-> [Hdot Hc]]]].
    apply matches_class in Hdot. destruct Hdot as [d [-> Hd]].
    apply Ascii.eqb_eq in Hd. subst d.
    apply matches_plus_class in Hc.
    exists a, b, c. auto.
  - intros [a [b [c [-> [Ha [Hb Hc]]]]]].
    exists a, ("@" ++ b ++ "." ++ c). repeat split.
    + apply matches_plus_class; exact Ha.
    + apply matches_seq. exists "@", (b ++ "." ++ c). repeat split.
      * constructor. reflexivity.
      * apply matches_seq. exists b, ("." ++ c). repeat split.
        -- apply matches_plus_class; exact Hb.
        -- apply matches_seq. exists ".", c. repeat split.
           ++ constructor. reflexivity.
           ++ apply matches_plus_class; exact Hc.
Qed.

Lemma passwordChar_is_dot c : Utils.passwordChar c = true -> dot c = true.
Proof.
  destruct c as [[] [] [] [] [] [] [] []]; vm_compute; congruence.
Qed.

Lemma lookahead_class q s :
  allChars Utils.passwordChar s = true ->
  (matches (Seq (Seq (Star (Class dot)) (Class q)) (Star (Class any))) s
   <-> someChar q s = true).
Proof.
  intros Hall. rewrite matches_lookahead, someChar_split. split.
  - intros [x [c [y [-> [_ Hc]]]]]. eauto.
  - intros [x [c [y [-> Hc]]]]. exists x, c, y. repeat split; auto.
    rewrite allChars_append in Hall. apply andb_true_iff in Hall.
    apply (allChars_weaken _ _ _ passwordChar_is_dot), Hall.
Qed.

Lemma valid_password_is_strong s :
  Utils.isValidPassword s = strongPassword s.
Proof.
  apply eq_true_iff_eq.
  unfold Utils.isValidPassword, Utils.passwordRegex, Lookahead, strongPassword.
  rewrite test_matches. rewrite !andb_true_iff, Nat.leb_le. split.
  - intros H. inversion H as [ | | | | | r1 s1 x1 L1 H1 | | ]; subst.
    inversion H1 as [ | | | | | r2 s2 x2 L2 H2 | | ]; subst.
    inversion H2 as [ | | | | | r3 s3 x3 L3 H3 | | ]; subst.
    apply (matches_at_least_class Utils.passwordChar 8) in H3.
    destruct H3 as [Hlen Hall].
    apply (lookahead_class _ _ Hall) in L1.
    apply (lookahead_class _ _ Hall) in L2.
    apply (lookahead_class _ _ Hall) in L3.
    auto.
  - intros [[[[Hlen Hall] Hl] Hu] Hd].
    repeat constructor;
      try (apply (lookahead_class _ _ Hall); assumption).
    apply (matches_at_least_class Utils.passwordChar 8). auto.
Qed.

(** X2: [isValidPassword] accepts exactly the strings of at least eight
    code units, all from [a-zA-Z0-9@$!%*?&], that hold a lower-case letter,
    an upper-case letter and a digit. *)
Theorem isValidPassword_strong s :
  Utils.isValidPassword s = true
  <-> 8 <= String.length s
      /\ allChars Utils.passwordChar s = true
      /\ someChar lower s = true
      /\ someChar upper s = true
      /\ someChar digit s = true.
Proof.
  rewrite valid_password_is_strong. unfold strongPassword.
  rewrite !andb_true_iff, Nat.leb_le. tauto.
Qed.

(** X3: whatever [register] accepts, [login] accepts: an e-mail and a
    password that pass the input checks of [AuthService.register] pass
    those of [AuthService.login]. *)
Theorem registered_credentials_pass_login form :
  passesRegisterChecks form = true ->
  Terms.passesLoginChecks
    (mkLoginCredentials (register_email form) (register_password form))
  = true.
Proof.
  unfold passesRegisterChecks, Terms.passesLoginChecks.
  rewrite !andb_true_iff. intros [[[He Hp] _] _].
  cbn [login_email login_password]. rewrite He. split; [reflexivity|].
  rewrite valid_password_is_strong in Hp. unfold strongPassword in Hp.
  rewrite !andb_true_iff, Nat.leb_le in Hp.
  destruct Hp as [[[[Hlen _] _] _] _].
  apply negb_true_iff, orb_false_iff. split.
  - destruct (register_password form); [inversion Hlen|reflexivity].
  - apply Nat.ltb_ge. apply Nat.le_trans with 8; [|exact Hlen].
    repeat constructor.
Qed.

Lemma registered_credentials_pass_login_witness :
  Terms.passesLoginChecks
    (mkLoginCredentials (register_email Samples.registration)
       (register_password Samples.registration))
  = true.
Proof.
  apply (registered_credentials_pass_login Samples.registration).
  vm_compute. reflexivity.
Defined.

End Validators.

Section Sanitize.
Import RegexSem Shapes UtilsMore.

Lemma sanitize_clean str : someChar isAngle (sanitizeString str) = false.
Proof.
  induction str as [|c str IH]; simpl; [reflexivity|].
  destruct (Ascii.eqb c "<" || Ascii.eqb c ">") eqn:E; [exact IH|].
  simpl. unfold isAngle at 1. rewrite E, IH. reflexivity.
Qed.

Lemma sanitize_fixed str :
  someChar isAngle str = false -> sanitizeString str = str.
Proof.
  induction str as [|c str IH]; simpl; [reflexivity|].
  unfold isAngle at 1. intros H. apply orb_false_iff in H. destruct H as [E H].
  rewrite E, (IH H). reflexivity.
Qed.

(** X4: [sanitizeString] leaves no [<] and no [>] in its result, changes
    nothing in a string that has neither, and so is idempotent; it never
    makes a string longer, and it works piecewise on a concatenation. *)
Theorem sanitizeString_removes_angles str :
  someChar isAngle (sanitizeString str) = false
  /\ (someChar isAngle str = false -> sanitizeString str = str)
  /\ sanitizeString (sanitizeString str) = sanitizeString str
  /\ String.length (sanitizeString str) <= String.length str
  /\ (forall other,
        sanitizeString (str ++ other)
        = sanitizeString str ++ sanitizeString other).
Proof.
  split; [apply sanitize_clean|]. split; [apply sanitize_fixed|].
  split; [apply sanitize_fixed, sanitize_clean|]. split.
  - induction str as [|c str IH]; simpl; [auto|].
    destruct (Ascii.eqb c "<" || Ascii.eqb c ">"); simpl.
    + apply Nat.le_trans with (String.length str); auto.
    + apply le_n_S; exact IH.
  - intros other. induction str as [|c str IH]; simpl; [reflexivity|].
    destruct (Ascii.eqb c "<" || Ascii.eqb c ">"); simpl;
      rewrite IH; reflexivity.
Qed.

End Sanitize.

(** ** More on the middleware *)

Section MoreBranches.
Import Middleware.

Variable block : ServerClient -> NextRequest -> Session -> M (option Response).
Variable supabase : ServerClient.
Variable req : NextRequest.

Lemma public_not_root p : isPublicRoute p = true -> (p =? "/") = false.
Proof. intros H. by_prefix H. Qed.

Lemma mw_root_session s :
  auth_getSession supabase = Ok (Some s) ->
  nextUrl_pathname req = "/" ->
  middlewareWith block supabase req
  = ([CallGetSession], Ok (Redirect (dashboard req))).
Proof.
  intros Hs Hp. unfold middlewareWith, await, bind. rewrite Hs, Hp.
  reflexivity.
Qed.

Lemma mw_session_public s :
  auth_getSession supabase = Ok (Some s) ->
  isPublicRoute (nextUrl_pathname req) = true ->
  isAuthRoute (nextUrl_pathname req) = false ->
  middlewareWith block supabase req = ([CallGetSession], Ok Next).
Proof.
  intros Hs Hp Ha. unfold middlewareWith, await, bind.
  rewrite Hs, Ha, Hp, (public_not_root _ Hp). reflexivity.
Qed.

Lemma mw_session_rejects :
  auth_getSession supabase = Throw ->
  middlewareWith block supabase req = ([CallGetSession], Throw).
Proof.
  intros Hs. unfold middlewareWith, await, bind. rewrite Hs. reflexivity.
Qed.

End MoreBranches.

Section MiddlewareExtras.
Import Middleware Terms.

Ltac both_revisions H :=
  destruct H as [<-|[<-|[]]];
  unfold AuthHelpers.middleware, Ssr.middleware.

(** X5: on a public path that is not an auth-only one ([/auth/callback],
    [/auth/reset-password] and below) both revisions let every request
    through, with or without a session, and ask for no profile. *)
Theorem public_routes_pass mw supabase req session :
  In mw revisions ->
  auth_getSession supabase = Ok session ->
  isPublicRoute (nextUrl_pathname req) = true ->
  isAuthRoute (nextUrl_pathname req) = false ->
  mw supabase req = ([CallGetSession], Ok Next).
Proof.
  intros Hmw Hs Hp Ha. destruct session as [s|]; both_revisions Hmw;
    solve [ apply (mw_session_public _ _ _ s); assumption
          | apply mw_no_session_public; assumption ].
Qed.

Lemma public_routes_pass_witness :
  Ssr.middleware (Samples.signedIn (Samples.found "receptionist"))
    (Samples.request "/auth/callback?code=1")
  = ([CallGetSession], Ok Next).
Proof.
  apply (public_routes_pass Ssr.middleware
           (Samples.signedIn (Samples.found "receptionist"))
           (Samples.request "/auth/callback?code=1") (Some Samples.session)).
  - right; left; reflexivity.
  - reflexivity.
  - reflexivity.
  - reflexivity.
Defined.

(** X6: the root path [/] shows nothing to anybody: with a session both
    revisions redirect to the dashboard, without one to the login page
    with [redirectTo=/]; no profile is asked for. *)
Theorem root_always_redirects mw supabase req session :
  In mw revisions ->
  auth_getSession supabase = Ok session ->
  nextUrl_pathname req = "/" ->
  mw supabase req
  = ([CallGetSession],
     Ok (Redirect (if isSome session
                   then mkURL (url req) "/dashboard" []
                   else mkURL (url req) "/login" [("redirectTo", "/")]))).
Proof.
  intros Hmw Hs Hp. destruct session as [s|]; both_revisions Hmw.
  - apply (mw_root_session _ _ _ s); assumption.
  - apply (mw_root_session _ _ _ s); assumption.
  - rewrite (mw_no_session_private _ _ _ Hs) by (rewrite Hp; reflexivity).
    unfold loginWithReturn. rewrite Hp. reflexivity.
  - rewrite (mw_no_session_private _ _ _ Hs) by (rewrite Hp; reflexivity).
    unfold loginWithReturn. rewrite Hp. reflexivity.
Qed.

Lemma root_always_redirects_witness :
  AuthHelpers.middleware Samples.anonymous (Samples.request "/")
  = ([CallGetSession],
     Ok (Redirect (mkURL "https://clinic.test" "/login" [("redirectTo", "/")]))).
Proof.
  apply (root_always_redirects AuthHelpers.middleware Samples.anonymous
           (Samples.request "/") None).
  - left; reflexivity.
  - reflexivity.
  - reflexivity.
Defined.

(** X7: with a session and a resolved profile, role [admin] is let through
    on every private path other than [/], and every role is let through
    on the protected paths that carry no role rule; in both revisions. *)
Theorem admin_passes_everywhere mw supabase req s r :
  In mw revisions ->
  auth_getSession supabase = Ok (Some s) ->
  resolvedRole supabase s = Some r ->
  isPublicRoute (nextUrl_pathname req) = false ->
  (nextUrl_pathname req =? "/") = false ->
  r = "admin" \/ plainProtected (nextUrl_pathname req) = true ->
  outcome (mw supabase req) = Ok Next.
Proof.
  intros Hmw Hs Hr Hpub Hroot Hcase.
  assert (Hssr : outcome (Ssr.middleware supabase req) = Ok Next).
  { rewrite (ssr_by_role supabase req s Hs Hpub Hroot), Hr.
    unfold roleChecks. cbn [role]. destruct Hcase as [->|Hplain].
    - cbn. rewrite !andb_false_r. reflexivity.
    - unfold plainProtected in Hplain.
      rewrite !andb_true_iff, !negb_true_iff in Hplain.
      destruct Hplain as [[_ Ha] Hd]. rewrite Ha, Hd. reflexivity. }
  destruct Hmw as [<-|[<-|[]]]; [|exact Hssr].
  rewrite (auth_helpers_by_role supabase req s Hs Hpub Hroot).
  unfold resolvedRole in Hr.
  destruct (profileQuery supabase s); [exact Hssr|discriminate].
Qed.

Lemma admin_passes_everywhere_witness :
  outcome (Ssr.middleware (Samples.signedIn (Samples.found "receptionist"))
             (Samples.request "/patients")) = Ok Next.
Proof.
  apply (admin_passes_everywhere Ssr.middleware
           (Samples.signedIn (Samples.found "receptionist"))
           (Samples.request "/patients") Samples.session "receptionist").
  - right; left; reflexivity.
  - reflexivity.
  - reflexivity.
  - reflexivity.
  - reflexivity.
  - right; reflexivity.
Defined.

(** X8: the requests the middleware sends.  It always asks for the
    session first; it then asks for a profile exactly when there is a
    session and the path is private and not [/], once, and for the role of
    the session's own user. *)
Theorem profile_query_issued mw supabase req session :
  In mw revisions ->
  auth_getSession supabase = Ok session ->
  calls (mw supabase req)
  = match session with
    | Some s =>
        if negb (isPublicRoute (nextUrl_pathname req))
           && negb (nextUrl_pathname req =? "/")
        then [CallGetSession; CallSelectRole (user_id (session_user s))]
        else [CallGetSession]
    | None => [CallGetSession]
    end.
Proof.
  intros Hmw Hs.
  assert (Hblock : forall s,
            calls (profileBlock supabase req s)
            = [CallSelectRole (user_id (session_user s))]
            /\ calls (try_catch (profileBlock supabase req s) (ret None))
               = [CallSelectRole (user_id (session_user s))]).
  { intros s. unfold profileBlock, await, bind, try_catch, ret, calls.
    destruct (profiles_role_single supabase (user_id (session_user s)))
      as [q|]; [destruct (data q)|]; split; reflexivity. }
  destruct session as [s|].
  - destruct (isPublicRoute (nextUrl_pathname req)) eqn:Hpub.
    + destruct (isAuthRoute (nextUrl_pathname req)) eqn:Ha;
        both_revisions Hmw;
        solve [ rewrite (mw_auth_route_session _ _ _ s Hs Ha); reflexivity
              | rewrite (mw_session_public _ _ _ s Hs Hpub Ha); reflexivity ].
    + destruct (nextUrl_pathname req =? "/") eqn:Hroot.
      * apply String.eqb_eq in Hroot.
        both_revisions Hmw;
          rewrite (mw_root_session _ _ _ s Hs Hroot); reflexivity.
      * both_revisions Hmw;
          rewrite (mw_session_private _ _ _ s Hs Hpub Hroot);
          unfold calls at 1; cbn [fst]; cbv beta;
          destruct (Hblock s) as [H0 H1];
          rewrite ?H0, ?H1; reflexivity.
  - destruct (isPublicRoute (nextUrl_pathname req)) eqn:Hpub;
      both_revisions Hmw;
      solve [ rewrite (mw_no_session_public _ _ _ Hs Hpub); reflexivity
            | rewrite (mw_no_session_private _ _ _ Hs Hpub); reflexivity ].
Qed.

Lemma profile_query_issued_witness :
  calls (Ssr.middleware (Samples.signedIn Throw) (Samples.request "/admin"))
  = [CallGetSession; CallSelectRole "u-1"].
Proof.
  apply (profile_query_issued Ssr.middleware (Samples.signedIn Throw)
           (Samples.request "/admin") (Some Samples.session)).
  - right; left; reflexivity.
  - reflexivity.
Defined.

End MiddlewareExtras.

Section Redirects.
Import Middleware Terms.

Lemma roleChecks_cases req profile :
  roleChecks req profile = None
  \/ roleChecks req profile = Some (Redirect (dashboard req)).
Proof.
  unfold roleChecks.
  destruct (isAdminRoute (nextUrl_pathname req) && negb (role profile =? "admin"));
    [now right|].
  destruct (isDentistRoute (nextUrl_pathname req)
            && negb (JS.includes ["admin"; "dentist"] (role profile)));
    [now right|now left].
Qed.

Lemma block_cases supabase req s :
  (outcome (profileBlock supabase req s) = Throw
   /\ profileQuery supabase s = Throw
   /\ outcome (try_catch (profileBlock supabase req s) (ret None)) = Ok None)
  \/ (profileQuery supabase s <> Throw
      /\ outcome (try_catch (profileBlock supabase req s) (ret None))
         = outcome (profileBlock supabase req s)
      /\ (outcome (profileBlock supabase req s) = Ok None
          \/ outcome (profileBlock supabase req s)
             = Ok (Some (Redirect (dashboard req))))).
Proof.
  unfold profileQuery.
  destruct (profiles_role_single supabase (user_id (session_user s)))
    as [q|] eqn:Hq.
  - right. split; [discriminate|].
    destruct (data q) as [row|] eqn:Hd.
    + destruct (block_resolved supabase req s q row Hq Hd) as [H0 H1].
      rewrite H0, H1. split; [reflexivity|].
      destruct (roleChecks_cases req row) as [E|E]; rewrite E; auto.
    + destruct (block_nothing supabase req s q Hq Hd) as [H0 H1].
      rewrite H0, H1. auto.
  - left. destruct (block_thrown supabase req s Hq) as [H0 H1]. auto.
Qed.

(** Where a redirect goes and when. *)
Lemma redirect_cases mw supabase req u :
  In mw revisions ->
  outcome (mw supabase req) = Ok (Redirect u) ->
  (u = loginWithReturn req
   /\ auth_getSession supabase = Ok None
   /\ isPublicRoute (nextUrl_pathname req) = false)
  \/ (u = dashboard req /\ exists s, auth_getSession supabase = Ok (Some s)).
Proof.
  intros Hmw H.
  destruct (auth_getSession supabase) as [[s|]|] eqn:Hs.
  - right. split; [|eauto].
    destruct (isPublicRoute (nextUrl_pathname req)) eqn:Hpub.
    + destruct (isAuthRoute (nextUrl_pathname req)) eqn:Ha;
        destruct Hmw as [<-|[<-|[]]];
        unfold AuthHelpers.middleware, Ssr.middleware in H;
        first [ rewrite (mw_auth_route_session _ _ _ s Hs Ha) in H
              | rewrite (mw_session_public _ _ _ s Hs Hpub Ha) in H ];
        cbn [outcome snd] in H; congruence.
    + destruct (nextUrl_pathname req =? "/") eqn:Hroot.
      * apply String.eqb_eq in Hroot.
        destruct Hmw as [<-|[<-|[]]];
          unfold AuthHelpers.middleware, Ssr.middleware in H;
          rewrite (mw_root_session _ _ _ s Hs Hroot) in H;
          cbn [outcome snd] in H; congruence.
      * destruct Hmw as [<-|[<-|[]]];
          unfold AuthHelpers.middleware, Ssr.middleware in H;
          rewrite (mw_session_private_outcome _ _ _ s Hs Hpub Hroot) in H;
          cbv beta in H;
          destruct (block_cases supabase req s)
            as [[H0 [_ H1]]|[_ [H1 [H0|H0]]]];
          rewrite ?H1, ?H0 in H; congruence.
  - left.
    destruct (isPublicRoute (nextUrl_pathname req)) eqn:Hpub;
      destruct Hmw as [<-|[<-|[]]];
      unfold AuthHelpers.middleware, Ssr.middleware in H;
      first [ rewrite (mw_no_session_public _ _ _ Hs Hpub) in H
            | rewrite (mw_no_session_private _ _ _ Hs Hpub) in H ];
      cbn [outcome snd] in H; repeat split; congruence.
  - destruct Hmw as [<-|[<-|[]]];
      unfold AuthHelpers.middleware, Ssr.middleware in H;
      rewrite (mw_session_rejects _ _ _ Hs) in H; cbn [outcome snd] in H; discriminate.
Qed.

(** X9: the middleware redirects to two places only, both on the
    request's own origin: to [/login] with [redirectTo] set to the path
    requested, and only when there is no session and the path is private;
    or to [/dashboard] with no parameters, and only when there is a
    session. *)
Theorem redirects_only_to_login_or_dashboard mw supabase req u :
  In mw revisions ->
  outcome (mw supabase req) = Ok (Redirect u) ->
  (u = mkURL (url req) "/login" [("redirectTo", nextUrl_pathname req)]
   /\ auth_getSession supabase = Ok None
   /\ isPublicRoute (nextUrl_pathname req) = false)
  \/ (u = mkURL (url req) "/dashboard" []
      /\ exists s, auth_getSession supabase = Ok (Some s)).
Proof. intros Hmw H. exact (redirect_cases mw supabase req u Hmw H). Qed.

Lemma redirects_only_to_login_or_dashboard_witness :
  (dashboard (Samples.request "/users")
   = mkURL (url (Samples.request "/users")) "/login"
       [("redirectTo", nextUrl_pathname (Samples.request "/users"))]
   /\ auth_getSession (Samples.signedIn (Samples.found "dentist")) = Ok None
   /\ isPublicRoute (nextUrl_pathname (Samples.request "/users")) = false)
  \/ (dashboard (Samples.request "/users")
      = mkURL (url (Samples.request "/users")) "/dashboard" []
      /\ exists s,
           auth_getSession (Samples.signedIn (Samples.found "dentist"))
           = Ok (Some s)).
Proof.
  apply (redirects_only_to_login_or_dashboard Ssr.middleware
           (Samples.signedIn (Samples.found "dentist"))
           (Samples.request "/users")).
  - right; left; reflexivity.
  - reflexivity.
Defined.

Lemma dashboard_passes supabase url' s :
  auth_getSession supabase = Ok (Some s) ->
  outcome (Ssr.middleware supabase (mkRequest url' "/dashboard")) = Ok Next.
Proof.
  intros Hs.
  rewrite (ssr_by_role supabase (mkRequest url' "/dashboard") s Hs)
    by reflexivity.
  destruct (resolvedRole supabase s); reflexivity.
Qed.

(** X10: a redirect is never followed by another.  When the middleware
    redirects, the same client's request for the redirect's path is let
    through (in the auth-helpers revision unless the profile query, which
    the dashboard path triggers, rejects). *)
Theorem redirects_settle_in_one_hop supabase req u url' :
  (outcome (Ssr.middleware supabase req) = Ok (Redirect u) ->
   outcome (Ssr.middleware supabase (mkRequest url' (pathname u))) = Ok Next)
  /\ (outcome (AuthHelpers.middleware supabase req) = Ok (Redirect u) ->
      (forall s, auth_getSession supabase = Ok (Some s) ->
                 profileQuery supabase s <> Throw) ->
      outcome (AuthHelpers.middleware supabase (mkRequest url' (pathname u)))
      = Ok Next).
Proof.
  split.
  - intros H.
    destruct (redirect_cases Ssr.middleware supabase req u
                (or_intror (or_introl eq_refl)) H)
      as [[-> [Hs _]]|[-> [s Hs]]].
    + unfold Ssr.middleware.
      rewrite (mw_no_session_public _ _ _ Hs) by reflexivity. reflexivity.
    + apply (dashboard_passes supabase url' s Hs).
  - intros H Hq.
    destruct (redirect_cases AuthHelpers.middleware supabase req u
                (or_introl eq_refl) H)
      as [[-> [Hs _]]|[-> [s Hs]]].
    + unfold AuthHelpers.middleware.
      rewrite (mw_no_session_public _ _ _ Hs) by reflexivity. reflexivity.
    + rewrite (auth_helpers_by_role supabase
                 (mkRequest url' (pathname (dashboard req))) s Hs)
        by reflexivity.
      specialize (Hq s Hs). destruct (profileQuery supabase s);
        [|congruence].
      apply (dashboard_passes supabase url' s Hs).
Qed.

Lemma redirects_settle_in_one_hop_witness :
  outcome (Ssr.middleware Samples.anonymous
             (mkRequest "https://clinic.test/login"
                (pathname (loginWithReturn (Samples.request "/patients/3")))))
  = Ok Next.
Proof.
  apply (proj1 (redirects_settle_in_one_hop Samples.anonymous
                  (Samples.request "/patients/3")
                  (loginWithReturn (Samples.request "/patients/3"))
                  "https://clinic.test/login")).
  reflexivity.
Defined.

Lemma middlewareWith_ext b1 b2 supabase req :
  (forall s, auth_getSession supabase = Ok (Some s) ->
             b1 supabase req s = b2 supabase req s) ->
  middlewareWith b1 supabase req = middlewareWith b2 supabase req.
Proof.
  intros H. unfold middlewareWith, await, bind.
  destruct (auth_getSession supabase) as [[s|]|]; [|reflexivity|reflexivity].
  rewrite (H s eq_refl). reflexivity.
Qed.

(** X11: the two revisions differ only when the profile query rejects.
    If it does not, they send the same requests and answer alike.  The
    ssr revision rejects exactly when the session request does; the
    auth-helpers revision also rejects when the profile query, once
    issued, does. *)
Theorem revisions_differ_only_on_rejection supabase req :
  ((forall s, auth_getSession supabase = Ok (Some s) ->
              profileQuery supabase s <> Throw) ->
   AuthHelpers.middleware supabase req = Ssr.middleware supabase req)
  /\ (outcome (Ssr.middleware supabase req) = Throw
      <-> auth_getSession supabase = Throw)
  /\ (outcome (AuthHelpers.middleware supabase req) = Throw
      <-> auth_getSession supabase = Throw
          \/ exists s, auth_getSession supabase = Ok (Some s)
                       /\ isPublicRoute (nextUrl_pathname req) = false
                       /\ (nextUrl_pathname req =? "/") = false
                       /\ profileQuery supabase s = Throw).
Proof.
  split; [|split].
  - intros Hq. unfold AuthHelpers.middleware, Ssr.middleware.
    apply middlewareWith_ext. intros s Hs. specialize (Hq s Hs).
    unfold profileQuery in Hq. unfold profileBlock, await, bind, try_catch.
    destruct (profiles_role_single supabase (user_id (session_user s)))
      as [q|]; [|congruence].
    destruct (data q); reflexivity.
  - split.
    + intros H. destruct (auth_getSession supabase) as [[s|]|] eqn:Hs;
        [| |reflexivity]; exfalso.
      * destruct (isPublicRoute (nextUrl_pathname req)) eqn:Hpub.
        -- destruct (isAuthRoute (nextUrl_pathname req)) eqn:Ha;
             unfold Ssr.middleware in H;
             first [ rewrite (mw_auth_route_session _ _ _ s Hs Ha) in H
                   | rewrite (mw_session_public _ _ _ s Hs Hpub Ha) in H ];
             discriminate.
        -- destruct (nextUrl_pathname req =? "/") eqn:Hroot.
           ++ apply String.eqb_eq in Hroot. unfold Ssr.middleware in H.
              rewrite (mw_root_session _ _ _ s Hs Hroot) in H. discriminate.
           ++ rewrite (ssr_by_role supabase req s Hs Hpub Hroot) in H.
              destruct (resolvedRole supabase s) as [r|]; [|discriminate].
              destruct (roleChecks req (mkRoleRow r)); discriminate.
      * unfold Ssr.middleware in H.
        destruct (isPublicRoute (nextUrl_pathname req)) eqn:Hpub;
          first [ rewrite (mw_no_session_public _ _ _ Hs Hpub) in H
                | rewrite (mw_no_session_private _ _ _ Hs Hpub) in H ];
          discriminate.
    + intros Hs. unfold Ssr.middleware.
      rewrite (mw_session_rejects _ _ _ Hs). reflexivity.
  - split.
    + intros H. destruct (auth_getSession supabase) as [[s|]|] eqn:Hs;
        [| |now left].
      * right. exists s.
        destruct (isPublicRoute (nextUrl_pathname req)) eqn:Hpub.
        -- exfalso.
           destruct (isAuthRoute (nextUrl_pathname req)) eqn:Ha;
             unfold AuthHelpers.middleware in H;
             first [ rewrite (mw_auth_route_session _ _ _ s Hs Ha) in H
                   | rewrite (mw_session_public _ _ _ s Hs Hpub Ha) in H ];
             discriminate.
        -- destruct (nextUrl_pathname req =? "/") eqn:Hroot.
           ++ exfalso. apply String.eqb_eq in Hroot.
              unfold AuthHelpers.middleware in H.
              rewrite (mw_root_session _ _ _ s Hs Hroot) in H. discriminate.
           ++ repeat split.
              rewrite (auth_helpers_by_role supabase req s Hs Hpub Hroot) in H.
              destruct (profileQuery supabase s) eqn:Hq; [|reflexivity].
              exfalso.
              rewrite (ssr_by_role supabase req s Hs Hpub Hroot) in H.
              destruct (resolvedRole supabase s) as [r|]; [|discriminate].
              destruct (roleChecks req (mkRoleRow r)); discriminate.
      * exfalso. unfold AuthHelpers.middleware in H.
        destruct (isPublicRoute (nextUrl_pathname req)) eqn:Hpub;
          first [ rewrite (mw_no_session_public _ _ _ Hs Hpub) in H
                | rewrite (mw_no_session_private _ _ _ Hs Hpub) in H ];
          discriminate.
    + intros [Hs|[s [Hs [Hpub [Hroot Hq]]]]].
      * unfold AuthHelpers.middleware.
        rewrite (mw_session_rejects _ _ _ Hs). reflexivity.
      * rewrite (auth_helpers_by_role supabase req s Hs Hpub Hroot), Hq.
        reflexivity.
Qed.

Lemma revisions_differ_only_on_rejection_witness :
  AuthHelpers.middleware (Samples.signedIn (Samples.found "dentist"))
    (Samples.request "/reports")
  = Ssr.middleware (Samples.signedIn (Samples.found "dentist"))
      (Samples.request "/reports").
Proof.
  apply (proj1 (revisions_differ_only_on_rejection
                  (Samples.signedIn (Samples.found "dentist"))
                  (Samples.request "/reports"))).
  intros s _. discriminate.
Defined.

End Redirects.

Section SubPaths.
Import Middleware.

(** X12: classification is by prefix, so it is inherited by everything
    written after a classified path: if a path is public, auth-only,
    admin-restricted or role-restricted, so is every extension of it. *)
Theorem subpaths_inherit_class p suffix :
  (isPublicRoute p = true -> isPublicRoute (p ++ suffix) = true)
  /\ (isAuthRoute p = true -> isAuthRoute (p ++ suffix) = true)
  /\ (isAdminRoute p = true -> isAdminRoute (p ++ suffix) = true)
  /\ (isDentistRoute p = true -> isDentistRoute (p ++ suffix) = true).
Proof.
  assert (H : forall routes,
            matches routes p = true -> matches routes (p ++ suffix) = true).
  { intros routes Hm.
    destruct (matches_split _ _ Hm) as [route [rest [Hin ->]]].
    unfold matches, JS.some, JS.startsWith. apply existsb_exists.
    exists route. split; [exact Hin|].
    rewrite append_assoc3. apply prefix_append. }
  repeat split; apply H.
Qed.

Lemma subpaths_inherit_class_witness :
  isAdminRoute ("/users" ++ "/42/edit") = true.
Proof.
  apply (proj1 (proj2 (proj2 (subpaths_inherit_class "/users" "/42/edit")))).
  reflexivity.
Defined.

End SubPaths.

Section SearchParams.
Import Middleware LoginPage.

Lemma get_filter_other name other ps :
  other <> name ->
  searchParams_get other (filter (fun p => negb (fst p =? name)) ps)
  = searchParams_get other ps.
Proof.
  intros Hne. induction ps as [|[n v] ps IH]; simpl; [reflexivity|].
  destruct (String.eqb_spec n name) as [->|En]; simpl.
  - destruct (String.eqb_spec name other) as [E|_]; [congruence|exact IH].
  - destruct (n =? other); [reflexivity|exact IH].
Qed.

(** [searchParams.set] then [searchParams.get].  After [set(name,
    value)], [get(name)] answers [value] whatever was there before, the
    name occurs once, and [get] of every other name answers as before. *)
Lemma searchParams_get_set name value ps :
  searchParams_get name (searchParams_set name value ps) = Some value
  /\ length (filter (fun p => fst p =? name) (searchParams_set name value ps))
     = 1
  /\ (forall other, other <> name ->
        searchParams_get other (searchParams_set name value ps)
        = searchParams_get other ps).
Proof.
  split; [|split].
  - induction ps as [|[n v] ps IH]; simpl.
    + rewrite String.eqb_refl. reflexivity.
    + destruct (String.eqb_spec n name) as [->|En]; simpl.
      * rewrite String.eqb_refl. reflexivity.
      * destruct (String.eqb_spec n name); [contradiction|exact IH].
  - induction ps as [|[n v] ps IH]; simpl.
    + rewrite String.eqb_refl. reflexivity.
    + destruct (String.eqb_spec n name) as [->|En]; simpl.
      * rewrite String.eqb_refl. simpl. f_equal.
        clear IH. induction ps as [|[n' v'] ps IH]; simpl; [reflexivity|].
        destruct (n' =? name) eqn:E; simpl; [exact IH|].
        rewrite E. exact IH.
      * destruct (String.eqb_spec n name); [contradiction|exact IH].
  - intros other Hne. induction ps as [|[n v] ps IH]; simpl.
    + destruct (String.eqb_spec name other); [congruence|reflexivity].
    + destruct (String.eqb_spec n name) as [->|En]; simpl.
      * destruct (String.eqb_spec name other); [congruence|].
        apply get_filter_other; exact Hne.
      * destruct (n =? other); [reflexivity|exact IH].
Qed.

(** X13: the way back after login.  When the middleware sends a request
    to the login page, the login page's [redirectTo] is the path that was
    requested (any non-empty path); without the parameter it is
    [/dashboard]. *)
Theorem login_returns_to_requested_path mw supabase req u :
  In mw Terms.revisions ->
  outcome (mw supabase req) = Ok (Redirect u) ->
  pathname u = "/login" ->
  nextUrl_pathname req <> "" ->
  redirectTo (searchParams u) = nextUrl_pathname req
  /\ redirectTo [] = "/dashboard".
Proof.
  intros Hmw H Hlogin Hne. split; [|reflexivity].
  destruct (redirect_cases mw supabase req u Hmw H)
    as [[-> _]|[-> _]]; [|discriminate].
  unfold redirectTo, loginWithReturn, set_param, new_URL.
  cbn [searchParams searchParams_set searchParams_get].
  rewrite String.eqb_refl. unfold JS.truthy.
  destruct (String.eqb_spec (nextUrl_pathname req) ""); [contradiction|].
  reflexivity.
Qed.

Lemma login_returns_to_requested_path_witness :
  redirectTo (searchParams (loginWithReturn (Samples.request "/patients/3")))
  = nextUrl_pathname (Samples.request "/patients/3")
  /\ redirectTo [] = "/dashboard".
Proof.
  apply (login_returns_to_requested_path Ssr.middleware Samples.anonymous
           (Samples.request "/patients/3")
           (loginWithReturn (Samples.request "/patients/3"))).
  - right; left; reflexivity.
  - reflexivity.
  - reflexivity.
  - discriminate.
Defined.

End SearchParams.

(** ** More on the guard *)

Section GuardExtras.
Import Guard.

Lemma roleRefused_none allowedRoles : roleRefused allowedRoles None = false.
Proof. unfold roleRefused. apply andb_false_r. Qed.

(** X14: what the guard renders.  It shows the initial spinner exactly
    while it is not mounted or the provider is loading; it renders its
    children exactly when, mounted and loaded, the presence of a user is
    what [requireAuth] asks for and the user's role is not refused; it
    pushes [/login] exactly when a user is required and absent; and it
    never pushes anything but [/login] or [/dashboard]. *)
Theorem guard_rendering requireAuth allowedRoles user loading isClient :
  (AuthGuard requireAuth allowedRoles user loading isClient = Initializing
   <-> isClient = false \/ loading = true)
  /\ (AuthGuard requireAuth allowedRoles user loading isClient = Children
      <-> isClient = true /\ loading = false
          /\ isSome user = requireAuth
          /\ roleRefused allowedRoles user = false)
  /\ (AuthGuard requireAuth allowedRoles user loading isClient
      = Redirecting (Some "/login")
      <-> isClient = true /\ loading = false
          /\ requireAuth = true /\ user = None)
  /\ (forall target,
        AuthGuard requireAuth allowedRoles user loading isClient
        = Redirecting target ->
        target = Some "/login" \/ target = Some "/dashboard").
Proof.
  unfold AuthGuard.
  destruct isClient, loading, requireAuth, user as [u|];
    rewrite ?roleRefused_none; cbn [negb orb andb isSome];
    try destruct (roleRefused allowedRoles (Some u));
    repeat split; intros;
    repeat match goal with
           | H : _ /\ _ |- _ => destruct H
           | H : _ \/ _ |- _ => destruct H
           end;
    try discriminate; try congruence; auto;
    try (right; congruence); try (left; congruence).
Qed.

End GuardExtras.

(** ** More on AuthService *)

(** Unfold the plumbing of awaited calls, then split on every answer. *)
Ltac open_calls :=
  unfold await, bind, try_catch, ret, calls, outcome,
    Account.awaiting, Account.andThen, Account.tryCatch, Account.pure,
    Account.lift, Account.result, Account.issued, calls, outcome;
  rewrite ?getUserProfile_runs; cbv beta iota.

Ltac split_answers :=
  repeat (match goal with
          | |- context [match ?x with _ => _ end] =>
              lazymatch x with
              | context [match _ with _ => _ end] => fail
              | _ => destruct x eqn:?
              end
          end;
          cbn [AuthService.auth_error AuthService.auth_user
               AuthService.isSome negb fst snd];
          rewrite ?getUserProfile_runs; cbv beta iota).


Section ServiceExtras.
Import AuthService Shapes.

Variable supabase : BrowserClient.

Lemma try_catch_settles {A} (m : M A) (a : A) :
  outcome (try_catch m (ret a)) <> Throw.
Proof. destruct m as [t [v|]]; cbn; discriminate. Qed.

Lemma tryCatch_settles {A} (m : Account.T A) (a : A) :
  Account.result (Account.tryCatch m (Account.pure a)) <> Throw.
Proof. destruct m as [t [v|]]; cbn; discriminate. Qed.

(** X15: no method of [AuthService] rejects: whatever the identity
    provider and the profile table answer, and even when a request
    rejects, each method resolves to a value. *)
Theorem service_methods_never_reject
  (account : Account.AccountClient) credentials form userId origin email
  passwords patch :
  outcome (login supabase credentials) <> Throw
  /\ outcome (register supabase form) <> Throw
  /\ outcome (logout supabase) <> Throw
  /\ outcome (getUserProfile supabase userId) <> Throw
  /\ outcome (getCurrentUser supabase) <> Throw
  /\ outcome (Account.isAuthenticated supabase) <> Throw
  /\ Account.result (Account.resetPassword account origin email) <> Throw
  /\ Account.result (Account.updatePassword account passwords) <> Throw
  /\ Account.result (Account.updateProfile account patch) <> Throw.
Proof.
  unfold login, register, logout, getUserProfile, getCurrentUser,
    Account.isAuthenticated, Account.resetPassword, Account.updatePassword,
    Account.updateProfile.
  repeat apply conj;
    first [ apply try_catch_settles | apply tryCatch_settles ].
Qed.





(** X17: the input checks gate the requests.  [login] and [register]
    send their first request, the credential exchange or the sign-up,
    exactly when the input passes their checks, and nothing at all
    otherwise; [resetPassword] sends its one request exactly for a valid
    e-mail, with the reset page of the current origin as [redirectTo];
    [updatePassword] sends exactly the new password, when it is strong,
    and never the current one. *)
Theorem input_checks_gate_requests
  (account : Account.AccountClient) credentials form origin email passwords :
  hd_error (calls (login supabase credentials))
  = (if Terms.passesLoginChecks credentials
     then Some (CallSignInWithPassword (login_email credentials)
                  (login_password credentials))
     else None)
  /\ hd_error (calls (register supabase form))
     = (if passesRegisterChecks form
        then Some (CallSignUp (register_email form) (register_password form))
        else None)
  /\ Account.issued (Account.resetPassword account origin email)
     = (if Utils.isValidEmail email
        then [Account.CallResetPasswordForEmail email
                (origin ++ "/auth/reset-password")]
        else [])
  /\ Account.issued (Account.updatePassword account passwords)
     = (if Utils.isValidPassword (newPassword passwords)
        then [Account.CallUpdateUser (newPassword passwords)]
        else []).
Proof.
  split; [|split; [|split]].
  - unfold Terms.passesLoginChecks, login.
    destruct (Utils.isValidEmail (login_email credentials)); [|reflexivity].
    destruct ((login_password credentials =? "")
              || (String.length (login_password credentials) <? 6)%nat);
      [reflexivity|].
    cbn [negb andb]. open_calls. split_answers; reflexivity.
  - unfold passesRegisterChecks, register.
    destruct (Utils.isValidEmail (register_email form)); [|reflexivity].
    destruct (Utils.isValidPassword (register_password form)); [|reflexivity].
    destruct ((register_full_name form =? "")
              || (String.length (JS.trim (register_full_name form)) <? 2)%nat);
      [reflexivity|].
    destruct (register_clinic_id form =? ""); [reflexivity|].
    cbn [negb andb]. open_calls. split_answers; reflexivity.
  - unfold Account.resetPassword.
    destruct (Utils.isValidEmail email); [|reflexivity].
    cbn [negb]. open_calls. split_answers; reflexivity.
  - unfold Account.updatePassword.
    destruct (Utils.isValidPassword (newPassword passwords)); [|reflexivity].
    cbn [negb]. open_calls. split_answers; reflexivity.
Qed.

(** X18: what [register] does after the sign-up.  With valid input and a
    created account it inserts the profile; it then deletes the new
    account exactly when the insert answered with an error, reads the
    profile back exactly when the insert went through, and does neither
    when the insert rejected. *)
Theorem register_compensates form u :
  passesRegisterChecks form = true ->
  Terms.credentialsCreated supabase form u ->
  calls (register supabase form)
  = CallSignUp (register_email form) (register_password form)
    :: CallInsertProfile (user_id u) (register_clinic_id form)
         (register_full_name form) (register_role form)
    :: match profiles_insert supabase (user_id u) (register_clinic_id form)
               (register_full_name form) (register_role form) with
       | Ok (Some _) => [CallAdminDeleteUser (user_id u)]
       | Ok None => [CallSelectProfile (user_id u)]
       | Throw => []
       end.
Proof.
  unfold passesRegisterChecks, Terms.credentialsCreated, register.
  intros Hchecks Hup.
  rewrite !andb_true_iff, !negb_true_iff in Hchecks.
  destruct Hchecks as [[[He Hp] Hn] Hc].
  rewrite He, Hp, Hn, Hc. cbn [negb]. unfold await, bind, try_catch at 1.
  rewrite Hup. cbn [auth_error auth_user].
  destruct (profiles_insert supabase (user_id u) (register_clinic_id form)
              (register_full_name form) (register_role form)) as [[e|]|];
    cbn [isSome]; open_calls; split_answers; reflexivity.
Qed.

End ServiceExtras.

Lemma register_compensates_witness :
  calls (AuthService.register Samples.insertFails Samples.registration)
  = [CallSignUp "ana@clinic.test" "Secret123";
     CallInsertProfile "u-1" "c-1" "Ana Ruiz" "dentist";
     CallAdminDeleteUser "u-1"].
Proof.
  apply (register_compensates Samples.insertFails Samples.registration
           Samples.ana).
  - vm_compute. reflexivity.
  - reflexivity.
Defined.

Section SignedInFacts.
Import AuthService Shapes.

Variable supabase : BrowserClient.

Lemma getUserProfile_found userId p :
  outcome (getUserProfile supabase userId) = Ok (Some p)
  <-> profileFound supabase userId p.
Proof.
  rewrite getUserProfile_runs. cbn [outcome snd]. unfold profileFound. split.
  - destruct (profiles_select_single supabase userId) as [q|];
      [|discriminate].
    destruct (error q) as [e|] eqn:He; [discriminate|].
    destruct (data q) as [row|] eqn:Hd; [|discriminate].
    cbn. intros H. injection H as ->. exists q. auto.
  - intros [q [-> [He Hd]]]. rewrite He, Hd. reflexivity.
Qed.

Lemma getUserProfile_value userId :
  exists v, getUserProfile supabase userId = ([CallSelectProfile userId], Ok v)
            /\ (forall p, v = Some p <-> profileFound supabase userId p).
Proof.
  eexists. split; [apply getUserProfile_runs|].
  intros p. rewrite <- getUserProfile_found, getUserProfile_runs. cbn.
  split; congruence.
Qed.

(** X19: [login] answers with a user exactly when the input passes the
    checks, the identity provider answers with a user and no error, and
    that user's profile is found; the user then carries the provider's id
    and e-mail and the profile's role. *)
Theorem login_succeeds_iff credentials au :
  outcome (login supabase credentials) = Ok (mkUserResult (Some au) None)
  <-> Terms.passesLoginChecks credentials = true
      /\ exists u p,
           auth_signInWithPassword supabase (login_email credentials)
             (login_password credentials)
           = Ok (mkAuthResponse (Some u) None)
           /\ profileFound supabase (user_id u) p
           /\ au = mkAuthUser (user_id u) (user_email u) (profile_role p) p true.
Proof.
  unfold Terms.passesLoginChecks, login.
  destruct (Utils.isValidEmail (login_email credentials));
    [|split; [discriminate|intros [H _]; discriminate]].
  destruct ((login_password credentials =? "")
            || (String.length (login_password credentials) <? 6)%nat);
    [split; [discriminate|intros [H _]; discriminate]|].
  cbn [negb andb]. unfold await, bind, try_catch at 1.
  destruct (auth_signInWithPassword supabase (login_email credentials)
              (login_password credentials)) as [[[u|] [message|]]|];
    cbn [auth_error auth_user];
    try (split; [discriminate|intros [_ [u' [p [H _]]]]; discriminate]).
  destruct (getUserProfile_value (user_id u)) as [v [-> Hv]].
  destruct v as [p|]; cbn.
  - split.
    + intros H. injection H as <-. split; [reflexivity|].
      exists u, p. repeat split. apply Hv. reflexivity.
    + intros [_ [u' [p' [Hu [Hp ->]]]]]. injection Hu as <-.
      apply Hv in Hp. injection Hp as <-. reflexivity.
  - split; [discriminate|].
    intros [_ [u' [p' [Hu [Hp _]]]]]. injection Hu as <-.
    apply Hv in Hp. discriminate.
Qed.

(** X20: who counts as signed in on the client.  [getCurrentUser] answers
    with a user exactly when the identity provider reports one and that
    user's profile is found, and [isAuthenticated] answers [true] in
    exactly that case and [false] in every other, rejections included. *)
Theorem current_user_iff :
  (forall au,
     outcome (getCurrentUser supabase) = Ok (Some au)
     <-> exists u p, auth_getUser supabase = Ok (Some u)
                     /\ profileFound supabase (user_id u) p
                     /\ au = toAuthUser u p)
  /\ (outcome (Account.isAuthenticated supabase) = Ok true
      <-> exists u p, auth_getUser supabase = Ok (Some u)
                      /\ profileFound supabase (user_id u) p)
  /\ (outcome (Account.isAuthenticated supabase) = Ok true
      \/ outcome (Account.isAuthenticated supabase) = Ok false).
Proof.
  assert (Hcur : forall au,
            outcome (getCurrentUser supabase) = Ok (Some au)
            <-> exists u p, auth_getUser supabase = Ok (Some u)
                            /\ profileFound supabase (user_id u) p
                            /\ au = toAuthUser u p).
  { intros au. unfold getCurrentUser, await, bind, try_catch at 1.
    destruct (auth_getUser supabase) as [[u|]|];
      try (split; [discriminate|intros [u' [p [H _]]]; discriminate]).
    destruct (getUserProfile_value (user_id u)) as [v [-> Hv]].
    destruct v as [p|]; cbn.
    - split.
      + intros H. injection H as <-. exists u, p. repeat split.
        apply Hv. reflexivity.
      + intros [u' [p' [Hu [Hp ->]]]]. injection Hu as <-.
        apply Hv in Hp. injection Hp as <-. reflexivity.
    - split; [discriminate|].
      intros [u' [p' [Hu [Hp _]]]]. injection Hu as <-.
      apply Hv in Hp. discriminate. }
  split; [exact Hcur|].
  assert (Hauth : outcome (Account.isAuthenticated supabase)
                  = Ok (match outcome (getCurrentUser supabase) with
                        | Ok (Some _) => true
                        | _ => false
                        end)).
  { unfold Account.isAuthenticated, bind, try_catch at 1, outcome.
    destruct (getCurrentUser supabase) as [t [[au|]|]]; reflexivity. }
  rewrite Hauth. split.
  - destruct (outcome (getCurrentUser supabase)) as [[au|]|].
    + split; [intros _|reflexivity].
      destruct (proj1 (Hcur au) eq_refl) as [u [p [Hu [Hp _]]]]. eauto.
    + split; [discriminate|]. intros [u [p [Hu Hp]]].
      assert (H := proj2 (Hcur (toAuthUser u p))
                     (ex_intro _ u (ex_intro _ p (conj Hu (conj Hp eq_refl))))).
      discriminate.
    + split; [discriminate|]. intros [u [p [Hu Hp]]].
      assert (H := proj2 (Hcur (toAuthUser u p))
                     (ex_intro _ u (ex_intro _ p (conj Hu (conj Hp eq_refl))))).
      discriminate.
  - destruct (outcome (getCurrentUser supabase)) as [[au|]|]; auto.
Qed.

End SignedInFacts.

Section UpdateProfile.
Import AuthService Account.

(** X21: [updateProfile] touches only the signed-in user's own row.  It
    first asks who is signed in; with nobody signed in it sends nothing
    more and answers "Usuario no autenticado"; otherwise it sends the
    update for that user's id, and reads the profile back only when the
    update went through. *)
Theorem updateProfile_requests (account : AccountClient) patch :
  issued (updateProfile account patch)
  = Earlier CallGetUser
    :: match auth_getUser (browser account) with
       | Ok (Some u) =>
           CallUpdateProfile (user_id u) patch
           :: match profiles_update account patch (user_id u) with
              | Ok None => [Earlier (CallSelectProfile (user_id u))]
              | _ => []
              end
       | _ => []
       end
  /\ (auth_getUser (browser account) = Ok None ->
      result (updateProfile account patch)
      = Ok (failed "Usuario no autenticado")).
Proof.
  unfold updateProfile. split.
  - open_calls. split_answers;
      first [reflexivity | cbn in *; discriminate].
  - intros H. open_calls. rewrite H. reflexivity.
Qed.

End UpdateProfile.

(** ** More on AuthProvider *)

Section ProviderExtras.
Import AuthProvider AuthProviderMore.

Lemma userAction_settles r st :
  loading (userAction_settle r (action_begin st)) = false
  /\ initialized (userAction_settle r (action_begin st)) = initialized st
  /\ (error (userAction_settle r (action_begin st)) = None
      \/ user (userAction_settle r (action_begin st)) = user st).
Proof.
  unfold userAction_settle.
  destruct r as [res|]; [|cbn; auto].
  destruct (JS.truthyMessage (AuthService.result_error res)); [cbn; auto|].
  destruct (AuthService.result_user res); cbn; auto.
Qed.

Lemma errorAction_settles r st :
  loading (errorAction_settle r (action_begin st)) = false
  /\ initialized (errorAction_settle r (action_begin st)) = initialized st
  /\ user (errorAction_settle r (action_begin st)) = user st.
Proof.
  unfold errorAction_settle.
  destruct r as [e|]; [|cbn; auto].
  destruct (JS.truthyMessage e); cbn; auto.
Qed.

Lemma logout_settles r st :
  loading (logout_settle r (logout_begin st)) = false
  /\ initialized (logout_settle r (logout_begin st)) = initialized st
  /\ (error (logout_settle r (logout_begin st)) = None
      \/ user (logout_settle r (logout_begin st)) = user st).
Proof.
  unfold logout_settle.
  destruct r as [e|]; [|cbn; auto].
  destruct (JS.truthyMessage e); cbn; auto.
Qed.

(** X22: every action of the provider ends with [loading = false] and
    leaves [initialized] alone; [login], [register], [updateProfile] and
    [logout] leave the user as it was whenever they end with an error;
    [resetPassword] and [updatePassword] never change the user. *)
Theorem actions_end_settled supabase (account : Account.AccountClient)
  credentials form patch origin email passwords st :
  let ended (st' : AuthState) :=
    loading st' = false /\ initialized st' = initialized st in
  let kept (st' : AuthState) := error st' = None \/ user st' = user st in
  (ended (login supabase credentials st)
   /\ kept (login supabase credentials st))
  /\ (ended (register supabase form st) /\ kept (register supabase form st))
  /\ (ended (updateProfile account patch st)
      /\ kept (updateProfile account patch st))
  /\ (ended (logout supabase st) /\ kept (logout supabase st))
  /\ (ended (resetPassword account origin email st)
      /\ user (resetPassword account origin email st) = user st)
  /\ (ended (updatePassword account passwords st)
      /\ user (updatePassword account passwords st) = user st).
Proof.
  cbv zeta.
  unfold login, register, updateProfile, logout, resetPassword, updatePassword,
    login_settle, register_settle, login_begin, register_begin.
  repeat apply conj;
    first [ apply userAction_settles | apply errorAction_settles
          | apply logout_settles ].
Qed.

(** X23: initialisation never reports an error.  Because
    [getCurrentUser] does not reject, [initializeAuth] leaves [error] as
    it was, ends with [loading = false] and [initialized = true], and its
    user is the one [getCurrentUser] answered; mounted from the initial
    state, the provider therefore ends with [error = null], with or
    without a [window]. *)
Theorem initialisation_reports_no_error supabase st hasWindow :
  error (initializeAuth supabase st) = error st
  /\ loading (initializeAuth supabase st) = false
  /\ initialized (initializeAuth supabase st) = true
  /\ outcome (AuthService.getCurrentUser supabase)
     = Ok (user (initializeAuth supabase st))
  /\ error (mountEffect hasWindow supabase initialState) = None
  /\ loading (mountEffect hasWindow supabase initialState) = false
  /\ initialized (mountEffect hasWindow supabase initialState) = true.
Proof.
  assert (H : forall st0,
            error (initializeAuth supabase st0) = error st0
            /\ loading (initializeAuth supabase st0) = false
            /\ initialized (initializeAuth supabase st0) = true
            /\ outcome (AuthService.getCurrentUser supabase)
               = Ok (user (initializeAuth supabase st0))).
  { intros st0. unfold initializeAuth, initializeAuth_settle.
    assert (Hok : outcome (AuthService.getCurrentUser supabase) <> Throw)
      by (unfold AuthService.getCurrentUser; apply try_catch_settles).
    destruct (outcome (AuthService.getCurrentUser supabase)) as [v|];
      [|congruence].
    repeat split. }
  destruct (H st) as [H1 [H2 [H3 H4]]]. repeat split; auto;
    destruct hasWindow; cbn [mountEffect];
    try (destruct (H initialState) as [G1 [G2 [G3 _]]]; rewrite ?G1, ?G2, ?G3);
    reflexivity.
Qed.



End ProviderExtras.

(** ** The login and register pages *)

Section Pages.

Lemma valid_email_not_empty s :
  Utils.isValidEmail s = true -> (s =? "") = false.
Proof. destruct s; [discriminate|reflexivity]. Qed.

Lemma valid_password_not_empty s :
  Utils.isValidPassword s = true -> (s =? "") = false.
Proof. destruct s; [discriminate|reflexivity]. Qed.

(** X25: the login form and the service ask for the same thing.  The
    form validates exactly when the credentials pass the input checks of
    [AuthService.login].  A form that does not validate sends nothing,
    leaves the provider's state alone and does not navigate; one that does
    sends exactly one credential exchange and then navigates to
    [redirectTo]. *)
Theorem login_form_gates_submit supabase searchParams formData st :
  let credentials :=
    mkLoginCredentials (LoginPage.email formData) (LoginPage.password formData) in
  let submitted := LoginPage.handleSubmit supabase searchParams formData st in
  LoginPage.isValid (LoginPage.validateForm formData)
  = Terms.passesLoginChecks credentials
  /\ (Terms.passesLoginChecks credentials = false ->
      submitted
      = mkSubmission (LoginPage.validateForm formData) st [] None)
  /\ (Terms.passesLoginChecks credentials = true ->
      validationErrors submitted = []
      /\ auth submitted = AuthProvider.login supabase credentials st
      /\ length (filter AuthProvider.isExchange (requests submitted)) = 1
      /\ pushed submitted = Some (LoginPage.redirectTo searchParams)).
Proof.
  cbv zeta.
  assert (Hsame : LoginPage.isValid (LoginPage.validateForm formData)
                  = Terms.passesLoginChecks
                      (mkLoginCredentials (LoginPage.email formData)
                         (LoginPage.password formData))).
  { unfold LoginPage.isValid, LoginPage.validateForm, Terms.passesLoginChecks.
    cbn [login_email login_password].
    destruct (Utils.isValidEmail (LoginPage.email formData)) eqn:He.
    - rewrite (valid_email_not_empty _ He). cbn [negb app andb].
      destruct (LoginPage.password formData =? ""); [reflexivity|].
      destruct (String.length (LoginPage.password formData) <? 6)%nat;
        reflexivity.
    - destruct (LoginPage.email formData =? ""); reflexivity. }
  split; [exact Hsame|]. unfold LoginPage.handleSubmit. rewrite Hsame.
  split; intros Hc; rewrite Hc; cbn [negb]; [reflexivity|].
  cbn [validationErrors auth requests pushed]. repeat split.
  - rewrite Hc in Hsame. unfold LoginPage.isValid in Hsame.
    destruct (LoginPage.validateForm formData); [reflexivity|discriminate].
  - rewrite login_exchanges, Hc. reflexivity.
Qed.

(** X26: the register form asks for what the service asks for, and for
    the password twice.  The form validates exactly when its data pass the
    input checks of [AuthService.register] and the two passwords are
    equal. *)
Theorem register_form_matches_service formData :
  RegisterPage.isValid (RegisterPage.validateForm formData)
  = Shapes.passesRegisterChecks (RegisterPage.toRegisterData formData)
    && (RegisterPage.password formData =? RegisterPage.confirmPassword formData).
Proof.
  unfold RegisterPage.isValid, RegisterPage.validateForm,
    Shapes.passesRegisterChecks, RegisterPage.toRegisterData.
  cbn [register_email register_password register_full_name register_clinic_id].
  destruct (Utils.isValidEmail (RegisterPage.email formData)) eqn:He;
    [rewrite (valid_email_not_empty _ He)
    |destruct (RegisterPage.email formData =? ""); reflexivity].
  destruct (Utils.isValidPassword (RegisterPage.password formData)) eqn:Hp;
    [rewrite (valid_password_not_empty _ Hp)
    |destruct (RegisterPage.password formData =? ""); reflexivity].
  cbn [negb app andb].
  assert (Hconfirm :
            (if RegisterPage.confirmPassword formData =? ""
             then [("confirmPassword", "Confirma tu contraseña")]
             else if negb (RegisterPage.password formData
                           =? RegisterPage.confirmPassword formData)
             then [("confirmPassword", "Las contraseñas no coinciden")]
             else [])
            = if RegisterPage.password formData
                 =? RegisterPage.confirmPassword formData
              then [] else
                [("confirmPassword",
                  if RegisterPage.confirmPassword formData =? ""
                  then "Confirma tu contraseña"
                  else "Las contraseñas no coinciden")]).
  { destruct (String.eqb_spec (RegisterPage.confirmPassword formData) "")
      as [E|E].
    - rewrite E. rewrite (valid_password_not_empty _ Hp). reflexivity.
    - destruct (RegisterPage.password formData
                =? RegisterPage.confirmPassword formData); reflexivity. }
  rewrite Hconfirm.
  destruct (RegisterPage.password formData
            =? RegisterPage.confirmPassword formData);
    [|rewrite andb_false_r; reflexivity].
  rewrite andb_true_r. cbn [app].
  destruct (RegisterPage.full_name formData =? ""); [reflexivity|].
  destruct (String.length (JS.trim (RegisterPage.full_name formData)) <? 2)%nat;
    [reflexivity|].
  destruct (RegisterPage.clinic_id formData =? ""); reflexivity.
Qed.

(** X27: submitting navigates whether or not the provider signed anybody
    in.  When a valid form is submitted and the service answers with an
    error, the register page still pushes [/dashboard] and the login page
    still pushes [redirectTo]; the provider holds the error and the user
    it had; and for a visitor who was not signed in, the guard of a page
    that requires a user then pushes [/login]. *)
Theorem failed_submit_still_navigates supabase searchParams login_form
  register_form st message :
  JS.truthy (Some message) = true ->
  AuthProvider.user st = None ->
  (LoginPage.isValid (LoginPage.validateForm login_form) = true ->
   outcome (AuthService.login supabase
              (mkLoginCredentials (LoginPage.email login_form)
                 (LoginPage.password login_form)))
   = Ok (AuthService.failed message) ->
   let submitted := LoginPage.handleSubmit supabase searchParams login_form st in
   pushed submitted = Some (LoginPage.redirectTo searchParams)
   /\ AuthProvider.error (auth submitted) = Some (JS.Text message)
   /\ Guard.AuthGuard true [] (AuthProvider.user (auth submitted))
        (AuthProvider.loading (auth submitted)) true
      = Guard.Redirecting (Some "/login"))
  /\ (RegisterPage.isValid (RegisterPage.validateForm register_form) = true ->
      outcome (AuthService.register supabase
                 (RegisterPage.toRegisterData register_form))
      = Ok (AuthService.failed message) ->
      let submitted := RegisterPage.handleSubmit supabase register_form st in
      pushed submitted = Some "/dashboard"
      /\ AuthProvider.error (auth submitted) = Some (JS.Text message)
      /\ Guard.AuthGuard true [] (AuthProvider.user (auth submitted))
           (AuthProvider.loading (auth submitted)) true
         = Guard.Redirecting (Some "/login")).
Proof.
  intros Ht Hnone. split; intros Hvalid Hres; cbv zeta.
  - unfold LoginPage.handleSubmit. rewrite Hvalid. cbn [negb pushed auth].
    unfold AuthProvider.login, AuthProvider.login_settle,
      AuthProvider.userAction_settle. rewrite Hres.
    unfold AuthService.failed, AuthService.failedWith.
    cbn [AuthService.result_error]. rewrite truthy_text, Ht.
    cbn. rewrite Hnone. repeat split.
  - unfold RegisterPage.handleSubmit. rewrite Hvalid. cbn [negb pushed auth].
    unfold AuthProvider.register, AuthProvider.register_settle,
      AuthProvider.userAction_settle. rewrite Hres.
    unfold AuthService.failed, AuthService.failedWith.
    cbn [AuthService.result_error]. rewrite truthy_text, Ht.
    cbn. rewrite Hnone. repeat split.
Qed.

Lemma failed_submit_still_navigates_witness :
  pushed (LoginPage.handleSubmit Samples.noProfile [("redirectTo", "/patients")]
            (LoginPage.mkFormData "ana@clinic.test" "secret1")
            Samples.anonymousState)
  = Some "/patients"
  /\ AuthProvider.error
       (auth (LoginPage.handleSubmit Samples.noProfile
                [("redirectTo", "/patients")]
                (LoginPage.mkFormData "ana@clinic.test" "secret1")
                Samples.anonymousState))
     = Some (JS.Text "Perfil de usuario no encontrado").
Proof.
  destruct (proj1 (failed_submit_still_navigates Samples.noProfile
                     [("redirectTo", "/patients")]
                     (LoginPage.mkFormData "ana@clinic.test" "secret1")
                     RegisterPage.initialForm Samples.anonymousState
                     "Perfil de usuario no encontrado" eq_refl eq_refl)
              eq_refl eq_refl) as [Hpush [Herr _]].
  split; [exact Hpush|exact Herr].
Defined.

End Pages.

(** ** Role permissions against the middleware *)

Section PermissionsExtras.
Import Middleware Terms Permissions.

(** X28: the permission table and the middleware agree.  For a session
    whose profile resolves to one of the three roles, the middleware lets
    the request through on a role-restricted path exactly when the table
    grants that role [canViewReports], and on an admin-restricted path
    exactly when it grants [canManageUsers] and [canManageSettings]. *)
Theorem permissions_match_middleware supabase req s r :
  auth_getSession supabase = Ok (Some s) ->
  resolvedRole supabase s = Some (roleName r) ->
  (isDentistRoute (nextUrl_pathname req) = true ->
   (outcome (Ssr.middleware supabase req) = Ok Next
    <-> canViewReports (ROLE_PERMISSIONS r) = true))
  /\ (isAdminRoute (nextUrl_pathname req) = true ->
      (outcome (Ssr.middleware supabase req) = Ok Next
       <-> canManageUsers (ROLE_PERMISSIONS r) = true
           /\ canManageSettings (ROLE_PERMISSIONS r) = true)).
Proof.
  intros Hs Hr. split; intros Hclass.
  - rewrite (ssr_by_role supabase req s Hs (dentist_not_public _ Hclass)
               (dentist_not_root _ Hclass)), Hr.
    unfold roleChecks. cbn [role].
    rewrite (dentist_not_admin _ Hclass), Hclass.
    destruct r; cbn; split; intros H; try discriminate; auto.
  - rewrite (ssr_by_role supabase req s Hs (admin_not_public _ Hclass)
               (admin_not_root _ Hclass)), Hr.
    unfold roleChecks. cbn [role].
    rewrite (admin_not_dentist _ Hclass), Hclass.
    destruct r; cbn; split; intros H; try discriminate; auto;
      destruct H; discriminate.
Qed.

Lemma permissions_match_middleware_witness :
  outcome (Ssr.middleware (Samples.signedIn (Samples.found "dentist"))
             (Samples.request "/reports/2024")) = Ok Next
  <-> canViewReports (ROLE_PERMISSIONS dentist) = true.
Proof.
  apply (proj1 (permissions_match_middleware
                  (Samples.signedIn (Samples.found "dentist"))
                  (Samples.request "/reports/2024") Samples.session dentist
                  eq_refl eq_refl)).
  reflexivity.
Defined.

End PermissionsExtras.
